(** * Differentiable cart-pole: simulator, training loop and training UI

    A shallow embedding of [src/cart-pole/index.js] (classes [Controller]
    and [CartPole]) and of the training click handler of
    [src/cart-pole/ui.js].

    Numbers.  A rank-0 [tf.Tensor] and a JavaScript number are both modelled
    by the real number they hold: arithmetic is exact, there is no rounding
    and no overflow.  A field that was never assigned is [None]
    (JavaScript's [undefined]).

    Language.  Scoping, operators and the order of evaluation are those
    of the language: an identifier that no enclosing function or module
    declares is looked up in the global object and its absence there is
    a ReferenceError; [*] yields a number primitive; a method call
    evaluates its arguments before it finds that the callee is not a
    function; an async function that throws is a call that raises.

    Library calls.  Calls into TensorFlow.js are read as the library
    defines them: [tf.min(x, axis)] and [tf.max(x, axis)] reduce [x]
    along [axis] (the binary operations are [tf.minimum] and
    [tf.maximum]); [t.dataSync()] yields the number held by [t]; an
    operation given [undefined] for a tensor throws; [tf.tidy] is
    transparent, and [tf.variableGrads], [optimizer.applyGradients],
    [tf.dispose] and [tf.nextFrame] return.

    Rounding.  The tensors hold float32 numbers and the model does not
    round.  The statements below are those that rounding leaves true:
    which calls throw and which events happen, comparisons of stored
    values, symmetries, and bounds with a margin. *)

From Stdlib Require Import Reals Lra Lia ZArith List String Bool.
Import ListNotations.

Open Scope R_scope.

(** ** Errors of the host language *)

Inductive JsError : Type :=
| ReferenceError (name : string)   (* an identifier with no binding *)
| TypeError (what : string)        (* member of undefined, call of a non-function *)
| Error (message : string).        (* [throw new Error(...)] and library argument checks *)

Inductive Result (A : Type) : Type :=
| Ok (a : A)
| Throw (e : JsError).
Arguments Ok {A} a.
Arguments Throw {A} e.

Definition rbind {A B} (r : Result A) (k : A -> Result B) : Result B :=
  match r with
  | Ok a => k a
  | Throw e => Throw e
  end.

Declare Scope js_scope.
Delimit Scope js_scope with js.
Notation "'let?' x ':=' r 'in' k" := (rbind r (fun x => k))
  (at level 10, x name, r at level 100, k at level 200) : js_scope.
Open Scope js_scope.

(** ** Values that cross the boundary of the modelled code *)

Inductive JsVal : Type :=
| VUndefined
| VNumber (n : option R)   (* a number primitive; [None] is NaN *)
| VTensor (r : R)          (* a rank-0 tensor *)
| VObject (tag : string).  (* any other object *)

(** [ToNumber]: a tensor has no numeric primitive value. *)
Definition to_number (v : JsVal) : option R :=
  match v with
  | VNumber n => n
  | _ => None
  end.

(** The operator [*] always yields a number primitive. *)
Definition js_times (a b : JsVal) : JsVal :=
  match to_number a, to_number b with
  | Some x, Some y => VNumber (Some (x * y))
  | _, _ => VNumber None
  end.

(** [recv.add(arg)]: only a tensor has the method. *)
Definition call_add (recv : JsVal) (arg : R) : Result R :=
  match recv with
  | VTensor r => Ok (r + arg)
  | _ => Throw (TypeError "force.add is not a function")
  end.

(** A tensor operand that must be defined. *)
Definition operand (what : string) (f : option R) : Result R :=
  match f with
  | Some r => Ok r
  | None => Throw (Error what)
  end.

(** A receiver that must be defined: [this.x.sub], [this.x.dataSync]. *)
Definition receiver (what : string) (f : option R) : Result R :=
  match f with
  | Some r => Ok r
  | None => Throw (TypeError what)
  end.

(** [tf.min(x, axis)] and [tf.max(x, axis)] on a rank-0 tensor [x]:
    reductions along [axis].  With no axis the result is the scalar
    itself; a rank-0 tensor has no axis, so any axis that is given,
    a number or a tensor, is out of range.  The messages name the
    failure; they are not the text of the library. *)
Definition tf_min (x : R) (axis : JsVal) : Result R :=
  match axis with
  | VUndefined => Ok x
  | _ => Throw (Error "tf.min: axis out of range for a rank-0 tensor")
  end.

Definition tf_max (x : R) (axis : JsVal) : Result R :=
  match axis with
  | VUndefined => Ok x
  | _ => Throw (Error "tf.max: axis out of range for a rank-0 tensor")
  end.

(** Comparisons of the host language on numbers. *)
Definition js_lt (a b : R) : bool := if Rlt_dec a b then true else false.
Definition js_gt (a b : R) : bool := js_lt b a.

(** ** The host page *)

Record Host : Type := {
  (* properties of the global object, where an identifier that no
     function or module declares is looked up *)
  globalThis : list (string * JsVal);
  (* successive results of [Math.random()] *)
  random : nat -> R;
  (* [renderDuringTraining], ui.js line 60, toggled by a checkbox *)
  renderDuringTraining : bool;
  (* [renderCartPole(v, canvas)], ui.js line 95: [None] when it returns *)
  renderCartPole : JsVal -> option JsError;
  (* [stopRequested] as read at the end of iteration [i], ui.js line 266 *)
  stopRequested : nat -> bool
}.

Fixpoint assoc (id : string) (l : list (string * JsVal)) : option JsVal :=
  match l with
  | [] => None
  | (k, v) :: l' => if String.eqb id k then Some v else assoc id l'
  end.

(** Reading a free identifier. *)
Definition free_identifier (h : Host) (id : string) : Result JsVal :=
  match assoc id (globalThis h) with
  | Some v => Ok v
  | None => Throw (ReferenceError id)
  end.

(** The policy network, [net.predict]. *)
Definition Net : Type := JsVal -> Result JsVal.

(** ** Class CartPole *)

Module CartPole.

(** Constants set by the constructor, lines 141-155. *)
Definition gravity : R := 9.8.
Definition massCart : R := 1.0.
Definition massPole : R := 0.1.
Definition totalMass : R := massCart + massPole.
Definition cartWidth : R := 0.2.
Definition cartHeight : R := 0.1.
Definition length : R := 0.5.
Definition poleMoment : R := massPole * length.
Definition forceMag : R := 10.0.
Definition tau : R := 0.02.
Definition frac : R := 4.0 / 3.0.

Definition xThreshold : R := 2.4.
Definition thetaThreshold : R := 12 / 360 * 2 * PI.

(** The mutable fields. *)
Record t : Type := mk {
  x : option R;
  xDot : option R;
  theta : option R;
  thetaDot : option R;
  isDone : bool
}.

(** [setRandomState], lines 161-166: the four draws are bound to
    constants local to the method. *)
Definition setRandomState (h : Host) (s : t) : Result t :=
  let x := random h 0 - 0.5 in
  let xDot := (random h 1 - 0.5) * 1 in
  let theta := (random h 2 - 0.5) * 2 * (6 / 360 * 2 * PI) in
  let thetaDot := (random h 3 - 0.5) * 0.5 in
  Ok s.

(** The constructor, lines 139-159. *)
Definition new (h : Host) : Result t :=
  setRandomState h (mk None None None None false).

(** [_done], lines 203-208. *)
Definition _done (s : t) : Result bool :=
  let? x := receiver "this.x is undefined" (x s) in
  let? theta := receiver "this.theta is undefined" (theta s) in
  Ok (js_lt x (- xThreshold) || js_gt x xThreshold ||
      js_lt theta (- thetaThreshold) || js_gt theta thetaThreshold).

(** The accelerations of lines 175-177, as functions of the scalars
    they read. *)
Definition bottomTerm (cosTheta : R) : R :=
  length * (frac - massPole * (cosTheta ^ 2) / totalMass).
Definition thetaAcc (term sinTheta cosTheta : R) : R :=
  (gravity * sinTheta - cosTheta * term) / bottomTerm cosTheta.
Definition xAcc (term thetaAcc cosTheta : R) : R :=
  term - poleMoment * thetaAcc * cosTheta / totalMass.

(** [forward], lines 171-185, from the value bound to [force]. *)
Definition forward_from (force : JsVal) (s : t) : Result t :=
  (* 171-172 *)
  let? th := operand "tf.cos: undefined" (theta s) in
  let cosTheta := cos th in
  let sinTheta := sin th in
  (* 174: the argument of [force.add] is evaluated, then the call *)
  let? thd := operand "mul: undefined" (thetaDot s) in
  let? term := call_add force (poleMoment * thd * thd * sinTheta / totalMass) in
  (* 175-177 *)
  let thetaAcc := thetaAcc term sinTheta cosTheta in
  let xAcc := xAcc term thetaAcc cosTheta in
  (* 179-182 *)
  let? xd := operand "mul: undefined" (xDot s) in
  let? x0 := operand "add: undefined" (x s) in
  let x1 := tau * xd + x0 in
  let xDot1 := tau * xAcc + xd in
  let theta1 := tau * thd + th in
  let thetaDot1 := tau * thetaAcc + thd in
  let s1 := mk (Some x1) (Some xDot1) (Some theta1) (Some thetaDot1) (isDone s) in
  (* 184 *)
  let? d := _done s1 in
  Ok (mk (Some x1) (Some xDot1) (Some theta1) (Some thetaDot1) d).

(** [forward], lines 168-186. *)
Definition forward (h : Host) (net : Net) (s : t) : Result t :=
  (* 169: const force = net.predict(inputs) * this.forceMag *)
  let? inputs := free_identifier h "inputs" in
  let? predicted := net inputs in
  let force := js_times predicted (VTensor forceMag) in
  forward_from force s.

(** [lossFn], lines 188-201.  On lines 192 and 196 the inner call
    [tf.min(lower, upper)] is the argument of [tf.max] and is evaluated
    first, with the tensor [upper] in the place of the axis. *)
Definition lossFn (s : t) : Result R :=
  let? x := receiver "this.x is undefined" (x s) in
  let offAxis := x - 0.5 in
  let xLower := xThreshold + offAxis in
  let xUpper := xThreshold - offAxis in
  let? xMin := tf_min xLower (VTensor xUpper) in
  let? xMax := tf_max 0.0 (VTensor xMin) in
  let? theta := operand "add: undefined" (theta s) in
  let thetaLower := thetaThreshold + theta in
  let thetaUpper := thetaThreshold - theta in
  let? thetaMin := tf_min thetaLower (VTensor thetaUpper) in
  let? thetaMax := tf_max 0.0 (VTensor thetaMin) in
  let lossX := (xMax - xThreshold) ^ 2 * 0.01 in
  let lossTheta := (thetaMax - thetaThreshold) ^ 2 in
  Ok (lossX + lossTheta).

(** A simulator whose four variables are defined. *)
Definition at_state (x xDot theta thetaDot : R) (isDone : bool) : t :=
  mk (Some x) (Some xDot) (Some theta) (Some thetaDot) isDone.

End CartPole.


(** ** Effects of the training code

    What a run does to the simulator and to the optimizer is recorded as a
    sequence of events, oldest first. *)

Inductive GradArg : Type :=
| OfBlock (j : nat)          (* the [gradients] constant of unroll block [j], line 48 *)
| OfOuterScope (v : JsVal).  (* what [gradients] names outside the loop body, line 59 *)

Inductive Event : Type :=
| Render (v : JsVal)           (* [renderCartPole] returned *)
| NextFrame                    (* [await tf.nextFrame()] *)
| Forward                      (* a call of [cartPole.forward] *)
| LossFn                       (* a call of [cartPole.lossFn] *)
| VariableGrads (j : nat)      (* [tf.variableGrads(f).grads] obtained for block [j] *)
| ApplyGradients (g : GradArg) (* [optimizer.applyGradients] *)
| Dispose (g : GradArg)        (* [tf.dispose] *)
| IsDone (b : bool)            (* [cartPole.isDone] as read on line 52 *)
| Adam (learningRate : option R) (* [tf.train.adam] *)
| IterationEnd (i : nat)       (* [onIterationEnd] *)
| SaveModel.                   (* [net.saveModel] *)

Definition is_forward (e : Event) : bool :=
  match e with Forward => true | _ => false end.
Definition is_variableGrads (e : Event) : bool :=
  match e with VariableGrads _ => true | _ => false end.
Definition is_block_update (e : Event) : bool :=
  match e with ApplyGradients (OfBlock _) => true | _ => false end.
Definition is_update_of (j : nat) (e : Event) : bool :=
  match e with ApplyGradients (OfBlock i) => Nat.eqb i j | _ => false end.

Definition count (p : Event -> bool) (tr : list Event) : nat :=
  List.length (filter p tr).

(** The object passed as [cartPole]: the members [train] uses. *)
Record Simulator (S : Type) : Type := {
  sim_setRandomState : Host -> S -> Result S;
  sim_forward : Net -> S -> Result S;
  sim_lossFn : S -> Result R;
  sim_isDone : S -> bool
}.
Arguments sim_setRandomState {S}.
Arguments sim_forward {S}.
Arguments sim_lossFn {S}.
Arguments sim_isDone {S}.

(** The variables a run of [train] updates. *)
Record Store (S : Type) : Type := {
  sim : S;        (* the fields of [cartPole] *)
  steps : nat     (* [let steps], line 35 *)
}.
Arguments Build_Store {S}.
Arguments sim {S}.
Arguments steps {S}.

(** A computation: its result or the error it throws, the store it
    leaves, and the events it caused. *)
Definition M (S A : Type) : Type := Store S -> Result A * Store S * list Event.

Definition ret {S A} (a : A) : M S A := fun st => (Ok a, st, []).

Definition throw {S A} (e : JsError) : M S A := fun st => (Throw e, st, []).

Definition bind {S A B} (m : M S A) (k : A -> M S B) : M S B :=
  fun st =>
    match m st with
    | (Ok a, st1, tr1) =>
        match k a st1 with
        | (r, st2, tr2) => (r, st2, tr1 ++ tr2)
        end
    | (Throw e, st1, tr1) => (Throw e, st1, tr1)
    end.

Notation "x <- m ;; k" := (bind m (fun x => k))
  (at level 61, m at next level, right associativity) : js_scope.
Notation "m ;; k" := (bind m (fun _ => k))
  (at level 61, right associativity) : js_scope.

Definition emit {S} (e : Event) : M S unit := fun st => (Ok tt, st, [e]).

Definition lift {S A} (r : Result A) : M S A :=
  match r with
  | Ok a => ret a
  | Throw e => throw e
  end.

(** A method of [cartPole] that updates its fields. *)
Definition update_sim {S} (f : S -> Result S) : M S unit :=
  fun st =>
    match f (sim st) with
    | Ok s' => (Ok tt, Build_Store s' (steps st), [])
    | Throw e => (Throw e, st, [])
    end.

Definition read_sim {S A} (f : S -> A) : M S A :=
  fun st => (Ok (f (sim st)), st, []).

Definition set_steps {S} (n : nat) : M S unit :=
  fun st => (Ok tt, Build_Store (sim st) n, []).

Definition get_steps {S} : M S nat :=
  fun st => (Ok (steps st), st, []).

(** [++steps], line 43. *)
Definition incr_steps {S} : M S unit :=
  fun st => (Ok tt, Build_Store (sim st) (Datatypes.S (steps st)), []).

Definition outcome {S A} (r : Result A * Store S * list Event) : Result A :=
  fst (fst r).
Definition final {S A} (r : Result A * Store S * list Event) : Store S :=
  snd (fst r).
Definition events {S A} (r : Result A * Store S * list Event) : list Event :=
  snd r.

(** The instance of class [CartPole] as a [cartPole] argument. *)
Definition cartPoleObject (h : Host) : Simulator CartPole.t := {|
  sim_setRandomState := CartPole.setRandomState;
  sim_forward := CartPole.forward h;
  sim_lossFn := CartPole.lossFn;
  sim_isDone := CartPole.isDone
|}.

(** ** Class Controller *)

Module Controller.
Section Train.

Context {S : Type}.
Variable h : Host.
Variable net : Net.               (* [this.net] *)
Variable cartPole : Simulator S.

(** Line 34. *)
Definition seqLength : nat := 8.

(** [maybeRenderDuringTraining], ui.js lines 61-66. *)
Definition maybeRenderDuringTraining (v : JsVal) : M S unit :=
  if renderDuringTraining h then
    match renderCartPole h v with
    | None => emit (Render v) ;; emit NextFrame
    | Some e => throw e
    end
  else ret tt.

(** The loop of lines 41-44, [k] passes left. *)
Fixpoint unroll (k : nat) : M S unit :=
  match k with
  | O => ret tt
  | Datatypes.S k' =>
      emit Forward ;;
      update_sim (sim_forward cartPole net) ;;
      incr_steps ;;
      unroll k'
  end.

(** The closure [f], lines 40-46. *)
Definition f : M S R :=
  unroll seqLength ;;
  emit LossFn ;;
  l <- read_sim (sim_lossFn cartPole) ;;
  lift l.

(** The loop of lines 37-57, at pass [j] with [n] passes left:
    [n] is [maxSteps - j]. *)
Fixpoint episode (n j : nat) : M S unit :=
  match n with
  | O => ret tt
  | Datatypes.S n' =>
      (* 38 *)
      v <- lift (free_identifier h "cartPoleSystem") ;;
      maybeRenderDuringTraining v ;;
      (* 48: variableGrads runs f *)
      f ;;
      emit (VariableGrads j) ;;
      (* 49-50 *)
      emit (ApplyGradients (OfBlock j)) ;;
      emit (Dispose (OfBlock j)) ;;
      (* 52-54 *)
      d <- read_sim (sim_isDone cartPole) ;;
      emit (IsDone d) ;;
      if (d : bool) then ret tt
      else
        (* 56 *)
        emit NextFrame ;;
        episode n' (Datatypes.S j)
  end.

(** [train], lines 33-62, as a computation.  The [optimizer] argument is
    the receiver of the [ApplyGradients] events and has no other use. *)
Definition train_body (maxSteps : Z) : M S nat :=
  set_steps 0 ;;
  update_sim (sim_setRandomState cartPole h) ;;
  episode (Z.to_nat maxSteps) 0 ;;
  (* 59-60: [gradients] of line 48 is local to the loop body *)
  g <- lift (free_identifier h "gradients") ;;
  emit (ApplyGradients (OfOuterScope g)) ;;
  emit (Dispose (OfOuterScope g)) ;;
  get_steps.

(** A call of [train] on a simulator whose fields are [s]. *)
Definition train (maxSteps : Z) (s : S) : Result nat * Store S * list Event :=
  train_body maxSteps (Build_Store s 0).

End Train.
End Controller.

(** ** The click handler of the Train button, ui.js lines 227-276 *)

Module UI.
Section Handler.

Context {S : Type}.
Variable h : Host.
Variable net : Net.
Variable cartPole : Simulator S.

(** [n > bound] on what [Number.parseInt] returned; [None] is NaN. *)
Definition gt (n : option Z) (bound : Z) : bool :=
  match n with
  | Some z => (bound <? z)%Z
  | None => false
  end.

(** A call of a function named by a free identifier. *)
Definition call_free (id : string) : M S unit :=
  v <- lift (free_identifier h id) ;;
  match v with
  | VObject _ => ret tt
  | _ => throw (TypeError id)
  end.

(** The loop of lines 252-270, at pass [i] with [n] passes left. *)
Fixpoint iterations (n i : nat) (maxSteps : Z) : M S unit :=
  match n with
  | O => ret tt
  | Datatypes.S n' =>
      (* 253 *)
      Controller.train_body h net cartPole maxSteps ;;
      (* 255: sum(gameSteps) *)
      lift (free_identifier h "gameSteps") ;;
      (* 261-263 *)
      call_free "onIterationEnd" ;;
      emit (IterationEnd (Datatypes.S i)) ;;
      emit NextFrame ;;
      emit SaveModel ;;
      (* 266-269 *)
      if stopRequested h i then ret tt
      else iterations n' (Datatypes.S i) maxSteps
  end.

(** The else branch of the handler, from the values parsed from the
    three inputs: what it does to the simulator, the optimizer and the
    stored model.  The writes to the page, [disableModelControls] on
    line 231 before the checks and [logStatus] on lines 243-245, are
    not among the events; the text of the button is followed in
    [TrainButton.click]. *)
Definition trainClick (trainIterations maxSteps : option Z)
           (learningRate : option R) : M S unit :=
  (* 233-236 *)
  if negb (gt trainIterations 0) then
    throw (Error "Invalid number of iterations")
  else
  (* 237-240 *)
  if negb (gt maxSteps 1) then
    throw (Error "Invalid max. steps per game")
  else
  (* 241-246 *)
  emit (Adam learningRate) ;;
  (* 249 *)
  call_free "onIterationEnd" ;;
  emit (IterationEnd 0) ;;
  (* 252-270 *)
  match trainIterations, maxSteps with
  | Some n, Some m => iterations (Z.to_nat n) 0 m
  | _, _ => ret tt
  end.

End Handler.
End UI.

(** ** Lexical scopes

    The names declared around the places where the sources read
    [cartPoleSystem] (index.js line 38), [gradients] (line 59),
    [inputs] (line 169), [onIterationEnd] (ui.js lines 249, 261) and
    [gameSteps] (ui.js line 255). *)

Definition scope_index_js : list string :=
  ["tf"; "maybeRenderDuringTraining"; "setUpUI"; "MODEL_SAVE_PATH_";
   "Controller"; "SaveableController"]%string.
Definition scope_train : list string :=
  ["cartPole"; "optimizer"; "maxSteps"; "seqLength"; "steps"]%string.
Definition scope_train_loop : list string :=
  ["j"; "f"; "gradients"]%string.
Definition scope_cart_pole_js : list string :=
  ["tf"; "CartPole"]%string.
Definition scope_forward : list string :=
  ["net"; "force"; "cosTheta"; "sinTheta"; "term"; "bottomTerm"; "thetaAcc";
   "xAcc"]%string.
Definition scope_ui_js : list string :=
  ["tf"; "tfvis"; "embed"; "CartPole"; "SaveableController"; "mean"; "sum";
   "appStatus"; "storedModelStatusInput"; "createModelButton";
   "deleteStoredModelButton"; "cartPoleCanvas"; "numIterationsInput";
   "maxStepsInput"; "learningRateInput"; "renderDuringTrainingCheckbox";
   "trainButton"; "testButton"; "trainStatus"; "trainSpeed"; "trainProgress";
   "stepsContainer"; "net"; "stopRequested"; "logStatus";
   "renderDuringTraining"; "maybeRenderDuringTraining"; "stepValues";
   "plotSteps"; "disableModelControls"; "enableModelControls";
   "renderCartPole"; "updateUIControlState"; "setUpUI"]%string.
Definition scope_train_click : list string :=
  ["cartPole"; "trainIterations"; "maxSteps"; "learningRate"; "optimizer";
   "t0"; "i"; "steps"; "t1"; "stepsPerSecond"]%string.

Definition declared (scopes : list (list string)) (id : string) : bool :=
  existsb (existsb (String.eqb id)) scopes.

(** ** Hosts and simulators used in examples *)

(** The page of [index.html]: the global names that the sources read,
    and none that they leave undeclared. *)
Definition page : Host := {|
  globalThis := [("document"%string, VObject "document"); ("console"%string, VObject "console");
                 ("confirm"%string, VObject "confirm"); ("Math"%string, VObject "Math");
                 ("Number"%string, VObject "Number"); ("Date"%string, VObject "Date")];
  random := fun _ => 0.5;
  renderDuringTraining := true;
  renderCartPole := fun _ => None;
  stopRequested := fun _ => false
|}.

(** A host whose global object also has the names that the training code
    reads without declaring them. *)
Definition patched : Host := {|
  globalThis := [("cartPoleSystem"%string, VObject "cartPoleSystem");
                 ("gradients"%string, VObject "gradients");
                 ("inputs"%string, VTensor 0);
                 ("onIterationEnd"%string, VObject "onIterationEnd");
                 ("gameSteps"%string, VObject "gameSteps")];
  random := fun _ => 0.5;
  renderDuringTraining := false;
  renderCartPole := fun _ => None;
  stopRequested := fun _ => false
|}.

(** An object with the four members [train] uses.  Its state is the number
    of forward steps left before it is done; what it does with the
    network is left out. *)
Definition countdown : Simulator nat := {|
  sim_setRandomState := fun _ n => Ok n;
  sim_forward := fun _ n => Ok (Nat.pred n);
  sim_lossFn := fun _ => Ok 0;
  sim_isDone := fun n => Nat.eqb n 0
|}.

(** A network that answers every input with the tensor [0]. *)
Definition zeroNet : Net := fun _ => Ok (VTensor 0).

(** The angular acceleration as the documentation states it, and as
    pole.c has it, the reference named on line 115: force and pole term
    are both divided by the total mass.  For comparison with
    [CartPole.thetaAcc]. *)
Definition reference_thetaAcc (force th thd : R) : R :=
  (CartPole.gravity * sin th -
   cos th * ((force + CartPole.poleMoment * thd * thd * sin th) / CartPole.totalMass)) /
  (CartPole.length *
   (4 / 3 - CartPole.massPole * (cos th) ^ 2 / CartPole.totalMass)).


(** The host [patched] with the checkbox "Render during training" on. *)
Definition patched_rendering : Host := {|
  globalThis := globalThis patched;
  random := random patched;
  renderDuringTraining := true;
  renderCartPole := renderCartPole patched;
  stopRequested := stopRequested patched
|}.


Definition is_saveModel (e : Event) : bool :=
  match e with SaveModel => true | _ => false end.

(** ** The Train button across clicks, ui.js lines 227-276

    Of the controls, the text of the button is followed: it is what the
    handler branches on, and only [disableModelControls] (line 79) and
    [enableModelControls] (line 84) write it.  The clicks are those that
    arrive while no run is in progress; a click during a run is what
    [stopRequested] of the host reports. *)

Module TrainButton.
Section Clicks.

Context {S : Type}.
Variable h : Host.
Variable net : Net.
Variable cartPole : Simulator S.

(** What [Number.parseInt] and [Number.parseFloat] make of the three
    inputs when the button is clicked. *)
Record Inputs : Type := {
  trainIterations : option Z;
  maxSteps : option Z;
  learningRate : option R
}.

(** One click: the text of the button before, the text after, and the
    run. *)
Definition click (text : string) (i : Inputs) (st : Store S)
  : string * (Result unit * Store S * list Event) :=
  (* 228-229 *)
  if String.eqb text "Stop" then (text, (Ok tt, st, []))
  else
    (* 231: disableModelControls writes 'Stop' *)
    let r := UI.trainClick h net cartPole
               (trainIterations i) (maxSteps i) (learningRate i) st in
    match outcome r with
    (* 274: enableModelControls writes 'Train' *)
    | Ok _ => ("Train"%string, r)
    | Throw _ => ("Stop"%string, r)
    end.

(** Clicks one after the other: the text and the store at the end, and
    all events. *)
Fixpoint session (text : string) (clicks : list Inputs) (st : Store S)
  : string * Store S * list Event :=
  match clicks with
  | [] => (text, st, [])
  | i :: rest =>
      match click text i st with
      | (text1, r) =>
          match session text1 rest (final r) with
          | (text2, st2, tr2) => (text2, st2, events r ++ tr2)
          end
      end
  end.

End Clicks.
End TrainButton.

(** ** Class SaveableController, index.js lines 65-94

    The models that [tf.io] keeps are a table from URL to what was saved
    there: [save] writes the entry of its URL, [tf.io.listModels] shows
    the table, [tf.loadLayersModel] reads an entry that is listed, and
    [tf.io.removeModel] deletes an entry that is there.  What
    [tf.io.removeModel] does when nothing is stored under the URL is left
    open ([remove_missing]). *)

Module SaveableController.
Section Persistence.

Variable Model : Type.                    (* a [tf.LayersModel] *)

Record Saved : Type := {
  artifacts : Model;
  dateSaved : string
}.

Definition ModelStore : Type := list (string * Saved).

Variable remove_missing : ModelStore -> Result ModelStore.

(** Line 5. *)
Definition MODEL_SAVE_PATH_ : string := "indexeddb://differentiable-pole-v1".

Fixpoint listed (url : string) (store : ModelStore) : option Saved :=
  match store with
  | [] => None
  | (k, v) :: store' => if String.eqb url k then Some v else listed url store'
  end.

Fixpoint without (url : string) (store : ModelStore) : ModelStore :=
  match store with
  | [] => []
  | (k, v) :: store' =>
      if String.eqb url k then without url store' else (k, v) :: without url store'
  end.

(** A controller is its network, [this.net]. *)
Record t : Type := mk { net : Model }.

(** The constructor of [Controller], lines 8-14: [arg] is [Some m] when
    the argument is an instance of [tf.LayersModel]; [created] is the
    network that [createController] builds, lines 16-31. *)
Definition new (created : Model) (arg : option Model) : t :=
  match arg with
  | Some model => mk model
  | None => mk created
  end.

(** [saveModel], lines 70-72; [now] is the time of the call. *)
Definition saveModel (now : string) (c : t) (store : ModelStore) : ModelStore :=
  (MODEL_SAVE_PATH_, Build_Saved (net c) now) :: without MODEL_SAVE_PATH_ store.

(** [loadModel], lines 74-84. *)
Definition loadModel (created : Model) (store : ModelStore) : Result t :=
  match listed MODEL_SAVE_PATH_ store with
  | Some saved => Ok (new created (Some (artifacts saved)))
  | None =>
      Throw (Error "Cannot find model at indexeddb://differentiable-pole-v1.")
  end.

(** [checkStoredModelStatus], lines 86-89: what [tf.io.listModels] tells
    of the entry, here the time it was saved; [None] is [undefined]. *)
Definition checkStoredModelStatus (store : ModelStore) : option string :=
  option_map dateSaved (listed MODEL_SAVE_PATH_ store).

(** [removeModel], lines 91-93. *)
Definition removeModel (store : ModelStore) : Result ModelStore :=
  match listed MODEL_SAVE_PATH_ store with
  | Some _ => Ok (without MODEL_SAVE_PATH_ store)
  | None => remove_missing store
  end.

(** The controller that [setUpUI] starts with, ui.js lines 199-202;
    [None] is the module variable [net] left unset. *)
Definition setUpUI_net (created : Model) (store : ModelStore) : Result (option t) :=
  match checkStoredModelStatus store with
  | Some _ => let? c := loadModel created store in Ok (Some c)
  | None => Ok None
  end.

End Persistence.
End SaveableController.

(** ** Shape of the events of the episode loop *)

(** Events of a pass before its gradients exist. *)
Definition quiet (e : Event) : bool :=
  match e with
  | Render _ | NextFrame | Forward | LossFn => true
  | _ => false
  end.

Definition is_ok {A} (r : Result A) : bool :=
  match r with Ok _ => true | Throw _ => false end.

(** [Blocks n j ok tr]: [tr] can be the events of the loop of lines
    37-57 from pass [j] on, with at most [n] passes left; [ok] tells
    whether the loop is left normally or by an error. *)
Inductive Blocks : nat -> nat -> bool -> list Event -> Prop :=
| blocks_end n j : Blocks n j true []
| blocks_throw n j tr :
    Forall (fun e => quiet e = true) tr ->
    (count is_forward tr <= 8)%nat ->
    Blocks (S n) j false tr
| blocks_break n j tr :
    Forall (fun e => quiet e = true) tr ->
    count is_forward tr = 8%nat ->
    Blocks (S n) j true
      (tr ++ [VariableGrads j; ApplyGradients (OfBlock j); Dispose (OfBlock j);
              IsDone true])
| blocks_next n j ok tr rest :
    Forall (fun e => quiet e = true) tr ->
    count is_forward tr = 8%nat ->
    Blocks n (S j) ok rest ->
    Blocks (S n) j ok
      (tr ++ [VariableGrads j; ApplyGradients (OfBlock j); Dispose (OfBlock j);
              IsDone false; NextFrame] ++ rest).

(** A computation that causes quiet events only, with at most [k] calls
    of [forward], exactly [k] when it returns, and that counts in
    [steps] the calls that returned. *)
Definition steps_quietly {S A : Type} (m : M S A) (k : nat) : Prop :=
  forall st,
    Forall (fun e => quiet e = true) (events (m st)) /\
    (count is_forward (events (m st)) <= k)%nat /\
    (steps (final (m st)) <= steps st + count is_forward (events (m st)))%nat /\
    (is_ok (outcome (m st)) = true ->
     count is_forward (events (m st)) = k /\
     steps (final (m st)) = (steps st + k)%nat).

(** * Properties *)

(** ** Numbers *)

Lemma js_lt_true (a b : R) : js_lt a b = true <-> a < b.
Proof.
  unfold js_lt. destruct (Rlt_dec a b); split; intros; auto; discriminate.
Qed.

Lemma js_lt_false (a b : R) : js_lt a b = false <-> b <= a.
Proof.
  unfold js_lt. destruct (Rlt_dec a b); split; intros; auto; try discriminate; lra.
Qed.

Lemma thetaThreshold_pos : 0 < CartPole.thetaThreshold.
Proof.
  unfold CartPole.thetaThreshold. pose proof PI_RGT_0. lra.
Qed.

(** The threshold angle is more than 0.13 rad (it is pi/15). *)
Lemma thetaThreshold_lower : 0.13 < CartPole.thetaThreshold.
Proof.
  unfold CartPole.thetaThreshold. pose proof PI2_1. lra.
Qed.

(** ** The loss *)

(** With [x] defined the loss stops at the first [tf.min], line 192. *)
Lemma lossFn_stops_at_tf_min (x : R) (xd th thd : option R) (d : bool) :
  CartPole.lossFn (CartPole.mk (Some x) xd th thd d) =
  Throw (Error "tf.min: axis out of range for a rank-0 tensor").
Proof. reflexivity. Qed.

(** C6: [lossFn] returns no loss, zero or other, on any simulator: with
    [x] undefined it is a TypeError on line 189, and with [x] defined,
    inside the bounds or not, [tf.min] on line 192 takes [xUpper] for
    an axis and throws. *)
Theorem lossFn_always_throws (s : CartPole.t) :
  (CartPole.x s = None ->
   exists what, CartPole.lossFn s = Throw (TypeError what)) /\
  (CartPole.x s <> None ->
   exists message, CartPole.lossFn s = Throw (Error message)) /\
  is_ok (CartPole.lossFn s) = false.
Proof.
  destruct s as [[x|] xd th thd d]; simpl.
  - rewrite lossFn_stops_at_tf_min.
    split; [discriminate|]. split; [eauto | reflexivity].
  - split; [intros _; eexists; reflexivity|].
    split; [intros H; contradiction | reflexivity].
Qed.

Lemma lossFn_always_throws_witness :
  exists message,
    CartPole.lossFn (CartPole.at_state 0 0 0 0 false) = Throw (Error message).
Proof.
  apply (proj1 (proj2 (lossFn_always_throws (CartPole.at_state 0 0 0 0 false)))).
  discriminate.
Defined.

(** C10: at x = 0.5, whatever theta is, theta = 0 included, [lossFn]
    throws an Error on line 192 and returns no loss. *)
Theorem lossFn_throws_at_centre (xd th thd : R) (d : bool) :
  exists message,
    CartPole.lossFn (CartPole.at_state 0.5 xd th thd d) = Throw (Error message).
Proof.
  unfold CartPole.at_state. rewrite lossFn_stops_at_tf_min. eauto.
Qed.

(** ** The termination check *)

Lemma done_inside (x xd th thd : R) (d : bool) :
  Rabs x <= CartPole.xThreshold -> Rabs th <= CartPole.thetaThreshold ->
  CartPole._done (CartPole.at_state x xd th thd d) = Ok false.
Proof.
  unfold CartPole._done, CartPole.at_state, js_gt; simpl.
  intros Hx Hth. f_equal.
  unfold Rabs in Hx, Hth.
  destruct (Rcase_abs x); destruct (Rcase_abs th);
    repeat (apply orb_false_intro); apply js_lt_false; lra.
Qed.

Lemma done_beyond (x xd th thd : R) (d : bool) :
  Rabs x > CartPole.xThreshold \/ Rabs th > CartPole.thetaThreshold ->
  CartPole._done (CartPole.at_state x xd th thd d) = Ok true.
Proof.
  unfold CartPole._done, CartPole.at_state, js_gt; simpl.
  intros H. f_equal.
  repeat rewrite orb_true_iff. rewrite !js_lt_true.
  unfold Rabs in H.
  destruct H as [H|H]; [destruct (Rcase_abs x) | destruct (Rcase_abs th)]; lra.
Qed.

(** C9: [_done] is false when |x| <= xThreshold and
    |theta| <= thetaThreshold, and true when |x| > xThreshold or
    |theta| > thetaThreshold. *)
Theorem done_spec (x xd th thd : R) (d : bool) :
  (Rabs x <= CartPole.xThreshold -> Rabs th <= CartPole.thetaThreshold ->
   CartPole._done (CartPole.at_state x xd th thd d) = Ok false) /\
  (Rabs x > CartPole.xThreshold \/ Rabs th > CartPole.thetaThreshold ->
   CartPole._done (CartPole.at_state x xd th thd d) = Ok true).
Proof.
  split; [apply done_inside | apply done_beyond].
Qed.

Lemma done_spec_witness :
  CartPole._done (CartPole.at_state 2.4 0 0 0 false) = Ok false /\
  CartPole._done (CartPole.at_state 0 0 (CartPole.thetaThreshold + 0.01) 0 false) = Ok true.
Proof.
  pose proof thetaThreshold_pos as Ht.
  split.
  - apply (proj1 (done_spec 2.4 0 0 0 false)).
    + rewrite Rabs_pos_eq; unfold CartPole.xThreshold; lra.
    + rewrite Rabs_R0. lra.
  - apply (proj2 (done_spec 0 0 (CartPole.thetaThreshold + 0.01) 0 false)).
    right. rewrite Rabs_pos_eq; lra.
Defined.

(** ** Identifiers read without a declaration *)

(** The identifiers read through [free_identifier] have no declaration in
    the function or module that reads them; [gradients] has one inside
    the loop body only. *)
Lemma undeclared_reads :
  declared [scope_train_loop; scope_train; scope_index_js] "cartPoleSystem" = false /\
  declared [scope_train; scope_index_js] "gradients" = false /\
  declared [scope_train_loop; scope_train; scope_index_js] "gradients" = true /\
  declared [scope_forward; scope_cart_pole_js] "inputs" = false /\
  declared [scope_train_click; scope_ui_js] "onIterationEnd" = false /\
  declared [scope_train_click; scope_ui_js] "gameSteps" = false.
Proof. repeat split. Qed.

(** ** Reset and step of the simulator *)

(** C1: [setRandomState] returns the simulator as it received it: the
    four values it draws are not stored in the fields, and [isDone] is
    not written. *)
Theorem setRandomState_discards_draws (h : Host) (s : CartPole.t) :
  CartPole.setRandomState h s = Ok s.
Proof. reflexivity. Qed.

(** After the constructor the four state variables are still undefined. *)
Lemma new_leaves_fields_undefined (h : Host) :
  CartPole.new h = Ok (CartPole.mk None None None None false).
Proof. reflexivity. Qed.

Lemma js_times_number (a b : JsVal) : exists n, js_times a b = VNumber n.
Proof.
  unfold js_times. destruct (to_number a); [destruct (to_number b)|]; eauto.
Qed.

Lemma forward_from_number (n : option R) (s : CartPole.t) :
  exists e, CartPole.forward_from (VNumber n) s = Throw e.
Proof.
  unfold CartPole.forward_from.
  destruct (CartPole.theta s); simpl; [|eauto].
  destruct (CartPole.thetaDot s); simpl; eauto.
Qed.

(** C8: [forward] throws on every host, network and simulator, before
    any field is written: [inputs] is read free on line 169 and, where the
    global object has it, [force] is a number primitive without [add]. *)
Theorem forward_always_throws (h : Host) (net : Net) (s : CartPole.t) :
  exists e, CartPole.forward h net s = Throw e.
Proof.
  unfold CartPole.forward.
  destruct (free_identifier h "inputs") as [v|e]; simpl; [|eauto].
  destruct (net v) as [p|e]; simpl; [|eauto].
  destruct (js_times_number p (VTensor CartPole.forceMag)) as [n ->].
  apply forward_from_number.
Qed.

Example forward_on_page :
  CartPole.forward page zeroNet (CartPole.at_state 0 0 0 0 false) =
  Throw (ReferenceError "inputs").
Proof. reflexivity. Qed.

Example forward_on_patched :
  CartPole.forward patched zeroNet (CartPole.at_state 0 0 0 0 false) =
  Throw (TypeError "force.add is not a function").
Proof. reflexivity. Qed.

(** What lines 171-185 compute once [force] is a tensor: positions move
    by the old velocities, velocities by the accelerations. *)
Lemma forward_from_tensor (F x xd th thd : R) (d : bool) :
  let term := F + CartPole.poleMoment * thd * thd * sin th / CartPole.totalMass in
  let thetaAcc := CartPole.thetaAcc term (sin th) (cos th) in
  let xAcc := CartPole.xAcc term thetaAcc (cos th) in
  exists d',
    CartPole.forward_from (VTensor F) (CartPole.at_state x xd th thd d) =
    Ok (CartPole.at_state (CartPole.tau * xd + x) (CartPole.tau * xAcc + xd)
          (CartPole.tau * thd + th) (CartPole.tau * thetaAcc + thd) d').
Proof.
  intros term thetaAcc xAcc.
  unfold CartPole.forward_from, CartPole.at_state; simpl.
  eexists. reflexivity.
Qed.

(** The angular acceleration of line 176 is not the reference one: with
    force 1 on the upright pole at rest the two differ. *)
Lemma thetaAcc_not_reference :
  CartPole.thetaAcc (1 + CartPole.poleMoment * 0 * 0 * sin 0 / CartPole.totalMass)
    (sin 0) (cos 0) <> reference_thetaAcc 1 0 0.
Proof.
  unfold CartPole.thetaAcc, reference_thetaAcc, CartPole.bottomTerm.
  rewrite sin_0, cos_0.
  unfold CartPole.gravity, CartPole.poleMoment, CartPole.totalMass,
    CartPole.massCart, CartPole.massPole, CartPole.length, CartPole.frac.
  replace (1 ^ 2) with 1 by lra.
  assert (H1 : 0.5 * (4.0 / 3.0 - 0.1 * 1 / (1.0 + 0.1)) = 41 / 66) by lra.
  assert (H2 : 0.5 * (4 / 3 - 0.1 * 1 / (1.0 + 0.1)) = 41 / 66) by lra.
  rewrite H1, H2. lra.
Qed.

(** ** Lists of events *)

Lemma count_app (p : Event -> bool) (a b : list Event) :
  count p (a ++ b) = (count p a + count p b)%nat.
Proof. unfold count. rewrite filter_app, length_app. reflexivity. Qed.

Lemma count_quiet (p : Event -> bool) (tr : list Event) :
  (forall e, p e = true -> quiet e = false) ->
  Forall (fun e => quiet e = true) tr ->
  count p tr = 0%nat.
Proof.
  intros Hp Hq. unfold count. induction Hq as [|e tr He _ IH]; simpl.
  - reflexivity.
  - destruct (p e) eqn:E; [|exact IH].
    apply Hp in E. congruence.
Qed.

(** Where an element of a concatenation sits. *)
Lemma app_split_elem {A} (a b pre post : list A) (e : A) :
  a ++ b = pre ++ e :: post ->
  (exists m, pre = a ++ m /\ b = m ++ e :: post) \/
  (exists m, a = pre ++ e :: m /\ post = m ++ b).
Proof.
  revert pre. induction a as [|x a IH]; intros pre H; simpl in *.
  - left. exists pre. auto.
  - destruct pre as [|y pre]; simpl in *.
    + inversion H; subst. right. exists a. auto.
    + inversion H; subst.
      destruct (IH pre H2) as [[m [-> ->]]|[m [-> ->]]].
      * left. exists m. auto.
      * right. exists m. auto.
Qed.

Lemma quiet_no_elem (tr pre post : list Event) (e : Event) :
  Forall (fun e => quiet e = true) tr ->
  tr = pre ++ e :: post -> quiet e = true.
Proof.
  intros Hq ->. rewrite Forall_forall in Hq. apply Hq.
  apply in_or_app. right. left. reflexivity.
Qed.

(** An event that is not quiet lies after a quiet prefix. *)
Lemma split_after_quiet (a b pre post : list Event) (e : Event) :
  Forall (fun e => quiet e = true) a ->
  quiet e = false ->
  a ++ b = pre ++ e :: post ->
  exists m, pre = a ++ m /\ b = m ++ e :: post.
Proof.
  intros Hq He H.
  destruct (app_split_elem _ _ _ _ _ H) as [Hm|[m [Ha _]]]; [exact Hm|].
  apply (quiet_no_elem _ _ _ _ Hq) in Ha. congruence.
Qed.

(** [H : e1 :: l = m ++ e :: post] with [e1] and [e] built differently:
    [m] is not empty and its head is [e1]. *)
Ltac peel H m :=
  let x := fresh "e" in
  let Hx := fresh "He" in
  destruct m as [|x m]; [discriminate H | injection H as Hx H; subst x].

(** ** Shape of a run of [train] *)

Section TrainShape.

Context {S : Type}.
Variable h : Host.
Variable net : Net.
Variable cartPole : Simulator S.

Lemma unroll_quiet (k : nat) :
  steps_quietly (Controller.unroll net cartPole k) k.
Proof.
  induction k as [|k IH]; intros st.
  - simpl. unfold ret, events, final, outcome; simpl.
    split; [constructor|]. unfold count; simpl. lia.
  - simpl. unfold bind, emit, update_sim.
    destruct (sim_forward cartPole net (sim st)) as [s'|e]; simpl.
    + specialize (IH (Build_Store s' (Datatypes.S (steps st)))).
      destruct (Controller.unroll net cartPole k _) as [[r st2] tr2].
      unfold events, final, outcome in *; simpl in *.
      destruct IH as (Hq & Hc & Hs & Hok).
      change (count is_forward (Forward :: tr2))
        with (Datatypes.S (count is_forward tr2)).
      split; [constructor; auto|].
      split; [lia|]. split; [lia|].
      intros Hr. destruct (Hok Hr). lia.
    + unfold events, final, outcome; simpl.
      change (count is_forward [Forward]) with 1%nat.
      split; [repeat constructor|].
      split; [lia|]. split; [lia|]. discriminate.
Qed.

Lemma f_quiet : steps_quietly (Controller.f net cartPole) 8.
Proof.
  intros st. unfold Controller.f, bind.
  pose proof (unroll_quiet Controller.seqLength st) as Hu.
  destruct (Controller.unroll net cartPole Controller.seqLength st)
    as [[[[]|e] st1] tr1];
    unfold events, final, outcome in *; simpl in *.
  - destruct Hu as (Hq & Hc & Hs & Hok).
    destruct (Hok eq_refl) as [Hk Hst].
    unfold read_sim; simpl.
    destruct (sim_lossFn cartPole (sim st1)) as [l|e]; simpl;
      rewrite count_app;
      change (count is_forward [LossFn]) with 0%nat;
      unfold Controller.seqLength in *;
      (split; [apply Forall_app; split; [exact Hq | constructor; [reflexivity | constructor]]|]);
      (split; [lia|]); (split; [lia|]); intros; lia.
  - exact Hu.
Qed.

Lemma maybeRender_quiet (v : JsVal) :
  steps_quietly (S := S) (Controller.maybeRenderDuringTraining h v) 0.
Proof.
  intros st. unfold Controller.maybeRenderDuringTraining.
  destruct (renderDuringTraining h); [destruct (renderCartPole h v)|];
    unfold events, final, outcome, bind, emit, throw, ret, count; simpl;
    (split; [repeat constructor|]); (split; [lia|]); (split; [lia|]);
    intros; lia.
Qed.

(** The loop of lines 37-57. *)
Lemma episode_shape (n j : nat) (st : Store S) :
  let r := Controller.episode h net cartPole n j st in
  Blocks n j (is_ok (outcome r)) (events r) /\
  (steps (final r) <= steps st + count is_forward (events r))%nat /\
  (is_ok (outcome r) = true ->
   steps (final r) = (steps st + count is_forward (events r))%nat).
Proof.
  revert j st. induction n as [|n IH]; intros j st; simpl.
  - unfold ret, events, final, outcome, count; simpl.
    split; [constructor|]. split; intros; lia.
  - unfold bind, emit, read_sim, lift.
    destruct (free_identifier h "cartPoleSystem") as [v|e];
      unfold ret, throw; simpl.
    2:{ unfold events, final, outcome; simpl.
        split; [apply blocks_throw; [constructor | unfold count; simpl; lia]|].
        unfold count; simpl. split; [lia|discriminate]. }
    pose proof (maybeRender_quiet v st) as Hr.
    destruct (Controller.maybeRenderDuringTraining h v st) as [[[[]|e] st1] tr1];
      unfold events, final, outcome in Hr; simpl in Hr;
      destruct Hr as (Hq1 & Hc1 & Hs1 & Hok1).
    2:{ unfold events, final, outcome; simpl.
        split; [apply blocks_throw; [auto|lia]|].
        split; [lia|discriminate]. }
    destruct (Hok1 eq_refl) as [Hk1 Hst1].
    pose proof (f_quiet st1) as Hf.
    destruct (Controller.f net cartPole st1) as [[[l|e] st2] tr2];
      unfold events, final, outcome in Hf; simpl in Hf;
      destruct Hf as (Hq2 & Hc2 & Hs2 & Hok2).
    2:{ unfold events, final, outcome; simpl. rewrite count_app.
        split; [apply blocks_throw; [apply Forall_app; auto | rewrite count_app; lia]|].
        split; [lia|discriminate]. }
    destruct (Hok2 eq_refl) as [Hk2 Hst2].
    assert (Hq : Forall (fun e => quiet e = true) (tr1 ++ tr2))
      by (apply Forall_app; auto).
    assert (Hc : count is_forward (tr1 ++ tr2) = 8%nat)
      by (rewrite count_app; lia).
    simpl.
    destruct (sim_isDone cartPole (sim st2)) eqn:Hd; simpl.
    + unfold events, final, outcome; simpl.
      rewrite app_assoc. split; [apply blocks_break; auto|].
      rewrite count_app, Hc.
      change (count is_forward [VariableGrads j; ApplyGradients (OfBlock j);
                                Dispose (OfBlock j); IsDone true]) with 0%nat.
      split; intros; lia.
    + specialize (IH (Datatypes.S j) st2).
      destruct (Controller.episode h net cartPole n (Datatypes.S j) st2)
        as [[r3 st3] tr3].
      unfold events, final, outcome in *; simpl in *.
      destruct IH as (Hb & Hs3 & Hok3).
      rewrite app_assoc. split; [apply (blocks_next n j _ _ tr3); auto|].
      rewrite count_app, Hc.
      change (count is_forward (VariableGrads j :: ApplyGradients (OfBlock j)
                :: Dispose (OfBlock j) :: IsDone false :: NextFrame :: tr3))
        with (count is_forward tr3).
      split; [lia|]. intros Hr. specialize (Hok3 Hr). lia.
Qed.

(** A run of [train]: the events of the loop, then those of lines
    59-60 where they are reached. *)
Lemma train_shape (maxSteps : Z) (s : S) :
  let r := Controller.train h net cartPole maxSteps s in
  exists tr tail,
    events r = tr ++ tail /\
    (exists ok, Blocks (Z.to_nat maxSteps) 0 ok tr /\
                (is_ok (outcome r) = true -> ok = true)) /\
    (tail = [] \/
     exists g, tail = [ApplyGradients (OfOuterScope g); Dispose (OfOuterScope g)]) /\
    (steps (final r) <= count is_forward tr)%nat /\
    (forall k, outcome r = Ok k -> k = count is_forward tr).
Proof.
  unfold Controller.train, Controller.train_body.
  unfold bind, set_steps, update_sim, emit, get_steps, lift; simpl.
  destruct (sim_setRandomState cartPole h s) as [s'|e]; simpl.
  2:{ exists [], []. unfold events, final, outcome, count; simpl.
      split; [reflexivity|]. split; [exists true; split; [constructor|auto]|].
      split; [auto|]. split; [lia|discriminate]. }
  pose proof (episode_shape (Z.to_nat maxSteps) 0 (Build_Store s' 0)) as He.
  destruct (Controller.episode h net cartPole (Z.to_nat maxSteps) 0 _)
    as [[[[]|e] st1] tr1];
    unfold events, final, outcome in *; simpl in *;
    destruct He as (Hb & Hs & Hok).
  2:{ exists tr1, [].
      split; [symmetry; apply app_nil_r|].
      split; [exists false; split; [exact Hb|discriminate]|]. split; [auto|].
      split; [lia|discriminate]. }
  specialize (Hok eq_refl).
  destruct (free_identifier h "gradients") as [g|e]; unfold ret, throw; simpl.
  - exists tr1, [ApplyGradients (OfOuterScope g); Dispose (OfOuterScope g)].
    split; [reflexivity|]. split; [exists true; auto|]. split; [eauto|].
    split; [lia|]. intros k Hk. inversion Hk. lia.
  - exists tr1, [].
    split; [reflexivity|].
    split; [exists true; split; [exact Hb|discriminate]|]. split; [auto|].
    split; [lia|discriminate].
Qed.

End TrainShape.

(** ** What the shape of the loop gives *)

Lemma count_cons (p : Event -> bool) (e : Event) (tr : list Event) :
  count p (e :: tr) = ((if p e then 1 else 0) + count p tr)%nat.
Proof. unfold count; simpl. destruct (p e); reflexivity. Qed.

Lemma count_nil (p : Event -> bool) : count p [] = 0%nat.
Proof. reflexivity. Qed.

Lemma quiet_not_update (j : nat) (e : Event) : is_update_of j e = true -> quiet e = false.
Proof. destruct e; simpl; try discriminate; reflexivity. Qed.

Lemma quiet_not_block_update (e : Event) : is_block_update e = true -> quiet e = false.
Proof. destruct e; simpl; try discriminate; reflexivity. Qed.

Lemma quiet_not_grads (e : Event) : is_variableGrads e = true -> quiet e = false.
Proof. destruct e; simpl; try discriminate; reflexivity. Qed.

(** At most [n] blocks, eight calls of [forward] for each set of
    gradients. *)
Lemma blocks_budget (n j : nat) (ok : bool) (tr : list Event) :
  Blocks n j ok tr ->
  (count is_forward tr <= 8 * n)%nat /\
  (count is_variableGrads tr <= n)%nat /\
  (8 * count is_variableGrads tr <= count is_forward tr)%nat /\
  count is_block_update tr = count is_variableGrads tr /\
  (ok = true -> count is_forward tr = (8 * count is_variableGrads tr)%nat).
Proof.
  induction 1 as [n j | n j tr Hq Hc | n j tr Hq Hc | n j ok tr rest Hq Hc Hb IH].
  - rewrite !count_nil. lia.
  - rewrite (count_quiet is_variableGrads), (count_quiet is_block_update)
      by auto using quiet_not_grads, quiet_not_block_update.
    repeat (split; [lia|]). discriminate.
  - rewrite !count_app.
    rewrite (count_quiet is_variableGrads tr), (count_quiet is_block_update tr)
      by auto using quiet_not_grads, quiet_not_block_update.
    rewrite !count_cons, !count_nil; simpl. lia.
  - rewrite !count_app.
    rewrite (count_quiet is_variableGrads tr), (count_quiet is_block_update tr)
      by auto using quiet_not_grads, quiet_not_block_update.
    destruct IH as (I1 & I2 & I3 & I4 & I5).
    rewrite !count_cons; simpl.
    repeat (split; [lia|]). intros Hok. specialize (I5 Hok). lia.
Qed.

(** The passes from [j] on do not touch the gradients of earlier blocks. *)
Lemma blocks_index (n j : nat) (ok : bool) (tr : list Event) :
  Blocks n j ok tr ->
  forall i, (i < j)%nat -> count (is_update_of i) tr = 0%nat.
Proof.
  induction 1 as [n j | n j tr Hq Hc | n j tr Hq Hc | n j ok tr rest Hq Hc Hb IH];
    intros i Hi.
  - reflexivity.
  - apply count_quiet; eauto using quiet_not_update.
  - rewrite count_app, (count_quiet _ tr) by eauto using quiet_not_update.
    rewrite !count_cons, count_nil; simpl.
    destruct (Nat.eqb_spec j i); [lia|reflexivity].
  - rewrite !count_app, (count_quiet _ tr) by eauto using quiet_not_update.
    rewrite !count_cons; simpl. rewrite (IH i) by lia.
    destruct (Nat.eqb_spec j i); [lia|reflexivity].
Qed.

(** In the loop, gradients are applied right after they are obtained,
    and at no other time. *)
Lemma blocks_update_once (n j : nat) (ok : bool) (tr : list Event) :
  Blocks n j ok tr ->
  forall pre post i,
    tr = pre ++ VariableGrads i :: post ->
    exists post',
      post = ApplyGradients (OfBlock i) :: post' /\
      count (is_update_of i) pre = 0%nat /\
      count (is_update_of i) post' = 0%nat /\
      (j <= i)%nat.
Proof.
  induction 1 as [n j | n j tr Hq Hc | n j tr Hq Hc | n j ok tr rest Hq Hc Hb IH];
    intros pre post i Heq.
  - destruct pre; discriminate.
  - apply (quiet_no_elem _ _ _ _ Hq) in Heq. discriminate.
  - apply split_after_quiet in Heq; auto.
    destruct Heq as [m [-> Hm]].
    destruct m as [|e0 m]; simpl in Hm.
    + inversion Hm; subst.
      eexists. split; [reflexivity|].
      rewrite app_nil_r, (count_quiet _ tr) by eauto using quiet_not_update.
      rewrite !count_cons, count_nil; simpl. lia.
    + exfalso. injection Hm as _ Hm.
      do 3 peel Hm m. destruct m; discriminate.
  - apply split_after_quiet in Heq; auto.
    destruct Heq as [m [-> Hm]].
    change (VariableGrads j :: ApplyGradients (OfBlock j) :: Dispose (OfBlock j)
              :: IsDone false :: NextFrame :: rest)
      with ([VariableGrads j; ApplyGradients (OfBlock j); Dispose (OfBlock j);
             IsDone false; NextFrame] ++ rest) in Hm.
    apply app_split_elem in Hm.
    destruct Hm as [[m2 [-> Hrest]]|[m2 [Hm Hpost]]].
    + destruct (IH _ _ _ Hrest) as (post' & -> & Hpre & Hpost & Hji).
      exists post'. split; [reflexivity|].
      rewrite !count_app, (count_quiet _ tr) by eauto using quiet_not_update.
      rewrite !count_cons, count_nil; simpl.
      destruct (Nat.eqb_spec j i); lia.
    + destruct m as [|e0 m]; simpl in Hm.
      * inversion Hm; subst.
        eexists. split; [reflexivity|].
        rewrite app_nil_r, (count_quiet _ tr) by eauto using quiet_not_update.
        simpl. rewrite !count_cons; simpl.
        rewrite (blocks_index _ _ _ _ Hb i) by lia. lia.
      * exfalso. injection Hm as _ Hm.
        do 4 peel Hm m. destruct m; discriminate.
Qed.

(** The flag is read right after the update of a block, and the loop
    does nothing more once it has read [true]. *)
Lemma blocks_isDone (n j : nat) (ok : bool) (tr : list Event) :
  Blocks n j ok tr ->
  forall pre post b,
    tr = pre ++ IsDone b :: post ->
    (exists pre' i,
       pre = pre' ++ [VariableGrads i; ApplyGradients (OfBlock i); Dispose (OfBlock i)]) /\
    (b = true -> post = []).
Proof.
  induction 1 as [n j | n j tr Hq Hc | n j tr Hq Hc | n j ok tr rest Hq Hc Hb IH];
    intros pre post b Heq.
  - destruct pre; discriminate.
  - apply (quiet_no_elem _ _ _ _ Hq) in Heq. discriminate.
  - apply split_after_quiet in Heq; auto.
    destruct Heq as [m [-> Hm]].
    do 3 peel Hm m.
    destruct m as [|e3 m].
    + injection Hm as _ Hpost. subst post.
      split; [exists tr, j; reflexivity | reflexivity].
    + injection Hm as _ Hm. destruct m; discriminate.
  - apply split_after_quiet in Heq; auto.
    destruct Heq as [m [-> Hm]].
    change (VariableGrads j :: ApplyGradients (OfBlock j) :: Dispose (OfBlock j)
              :: IsDone false :: NextFrame :: rest)
      with ([VariableGrads j; ApplyGradients (OfBlock j); Dispose (OfBlock j);
             IsDone false; NextFrame] ++ rest) in Hm.
    apply app_split_elem in Hm.
    destruct Hm as [[m2 [-> Hrest]]|[m2 [Hm Hpost]]].
    + destruct (IH _ _ _ Hrest) as [[pre' [i ->]] Hp].
      split; [|exact Hp].
      exists (tr ++ [VariableGrads j; ApplyGradients (OfBlock j); Dispose (OfBlock j);
                     IsDone false; NextFrame] ++ pre'), i.
      rewrite <- !app_assoc. reflexivity.
    + do 3 peel Hm m.
      destruct m as [|e3 m].
      * injection Hm as Hbf _. subst b.
        split; [exists tr, j; reflexivity | discriminate].
      * injection Hm as _ Hm. peel Hm m. destruct m; discriminate.
Qed.

Lemma tail_counts (tail : list Event) :
  tail = [] \/
  (exists g, tail = [ApplyGradients (OfOuterScope g); Dispose (OfOuterScope g)]) ->
  count is_forward tail = 0%nat /\
  count is_variableGrads tail = 0%nat /\
  count is_block_update tail = 0%nat /\
  forall j, count (is_update_of j) tail = 0%nat.
Proof.
  intros [->|[g ->]]; repeat split; reflexivity.
Qed.

Lemma tail_no_elem (tail pre post : list Event) (e : Event) :
  tail = [] \/
  (exists g, tail = [ApplyGradients (OfOuterScope g); Dispose (OfOuterScope g)]) ->
  tail = pre ++ e :: post ->
  exists g, e = ApplyGradients (OfOuterScope g) \/ e = Dispose (OfOuterScope g).
Proof.
  intros [->|[g ->]] H.
  - destruct pre; discriminate.
  - exists g.
    destruct pre as [|? pre]; [injection H as H _; auto | injection H as _ H].
    destruct pre as [|? pre]; [injection H as H _; auto | injection H as _ H].
    destruct pre; discriminate.
Qed.

(** ** The training loop *)

(** C2, counterexample: with [maxSteps = 0] the loop body is not entered;
    the call raises on [gradients], line 59, and [cartPoleSystem] is not
    evaluated. *)
Lemma train_zero_steps_raises_on_gradients :
  outcome (Controller.train page zeroNet (cartPoleObject page) 0
             (CartPole.mk None None None None false)) =
    Throw (ReferenceError "gradients") /\
  outcome (Controller.train page zeroNet (cartPoleObject page) 0
             (CartPole.mk None None None None false)) <>
    Throw (ReferenceError "cartPoleSystem").
Proof. split; [reflexivity | discriminate]. Qed.

(** C2, amended: on a host whose global object has neither
    [cartPoleSystem] nor [gradients], every call of [train] raises a
    ReferenceError with no physics step, no gradient update and no
    return value: on [cartPoleSystem] in the first pass of the loop when
    [maxSteps >= 1], on [gradients] after the loop when [maxSteps < 1]. *)
Theorem train_raises_reference_error {S : Type} (h : Host) (net : Net)
    (cartPole : Simulator S) (maxSteps : Z) (s s' : S) :
  assoc "cartPoleSystem" (globalThis h) = None ->
  assoc "gradients" (globalThis h) = None ->
  sim_setRandomState cartPole h s = Ok s' ->
  exists id,
    Controller.train h net cartPole maxSteps s =
      (Throw (ReferenceError id), Build_Store s' 0, []) /\
    ((1 <= maxSteps)%Z -> id = "cartPoleSystem"%string) /\
    ((maxSteps < 1)%Z -> id = "gradients"%string).
Proof.
  intros Hc Hg Hs.
  unfold Controller.train, Controller.train_body.
  unfold bind, set_steps, update_sim; simpl. rewrite Hs.
  destruct (Z.to_nat maxSteps) as [|n] eqn:Hn; simpl.
  - exists "gradients"%string.
    unfold free_identifier, lift, ret, throw. rewrite Hg.
    split; [reflexivity|]. split; [lia|reflexivity].
  - exists "cartPoleSystem"%string.
    unfold bind, free_identifier, lift, ret, throw. rewrite Hc.
    split; [reflexivity|]. split; [reflexivity|lia].
Qed.

Lemma train_raises_reference_error_witness :
  exists id,
    Controller.train page zeroNet (cartPoleObject page) 500
      (CartPole.mk None None None None false) =
      (Throw (ReferenceError id),
       Build_Store (CartPole.mk None None None None false) 0, []) /\
    ((1 <= 500)%Z -> id = "cartPoleSystem"%string) /\
    ((500 < 1)%Z -> id = "gradients"%string).
Proof.
  apply (train_raises_reference_error page zeroNet (cartPoleObject page) 500);
    reflexivity.
Defined.

(** C3: in every call of [train], the gradients obtained for a block are
    applied at once, before anything else happens, and at no other time
    in the call, neither before nor later, the statements after the loop
    included. *)
Theorem train_applies_block_gradients_once {S : Type} (h : Host) (net : Net)
    (cartPole : Simulator S) (maxSteps : Z) (s : S)
    (pre post : list Event) (j : nat) :
  events (Controller.train h net cartPole maxSteps s) =
    pre ++ VariableGrads j :: post ->
  exists post',
    post = ApplyGradients (OfBlock j) :: post' /\
    count (is_update_of j) pre = 0%nat /\
    count (is_update_of j) post' = 0%nat.
Proof.
  intros Heq.
  destruct (train_shape h net cartPole maxSteps s)
    as (tr & tail & Hev & (ok & Hb & _) & Htail & _).
  rewrite Hev in Heq.
  apply app_split_elem in Heq.
  destruct Heq as [[m [_ Hm]]|[m [Htr Hpost]]].
  - destruct (tail_no_elem _ _ _ _ Htail Hm) as [g [H|H]]; discriminate.
  - destruct (blocks_update_once _ _ _ _ Hb _ _ _ Htr) as (post' & -> & Hpre & Hp & _).
    exists (post' ++ tail). subst post.
    split; [reflexivity|]. split; [exact Hpre|].
    rewrite count_app, Hp.
    destruct (tail_counts tail Htail) as (_ & _ & _ & Ht). rewrite Ht. reflexivity.
Qed.

Lemma train_applies_block_gradients_once_witness :
  exists post',
    [ApplyGradients (OfBlock 1); Dispose (OfBlock 1); IsDone true;
     ApplyGradients (OfOuterScope (VObject "gradients"));
     Dispose (OfOuterScope (VObject "gradients"))] =
      ApplyGradients (OfBlock 1) :: post' /\
    count (is_update_of 1)
      (repeat Forward 8 ++
       [LossFn; VariableGrads 0; ApplyGradients (OfBlock 0); Dispose (OfBlock 0);
        IsDone false; NextFrame] ++ repeat Forward 8 ++ [LossFn]) = 0%nat /\
    count (is_update_of 1) post' = 0%nat.
Proof.
  apply (train_applies_block_gradients_once patched zeroNet countdown 3 10%nat).
  reflexivity.
Defined.

(** C4, counterexample: with [maxSteps = 1] a call makes eight physics
    steps and returns 8. *)
Lemma train_steps_exceed_maxSteps :
  outcome (Controller.train patched zeroNet countdown 1 100%nat) = Ok 8%nat /\
  count is_forward (events (Controller.train patched zeroNet countdown 1 100%nat)) = 8%nat /\
  (1 < Z.of_nat 8)%Z.
Proof. repeat split. Qed.

(** C4, amended: [maxSteps] bounds the number of unroll blocks.  A call
    makes at most 8 * maxSteps calls of [forward], obtains gradients at
    most [maxSteps] times, once per eight calls, and the count it
    returns, when it returns, is the number of calls made. *)
Theorem train_step_budget {S : Type} (h : Host) (net : Net)
    (cartPole : Simulator S) (maxSteps : Z) (s : S) :
  let r := Controller.train h net cartPole maxSteps s in
  (count is_forward (events r) <= 8 * Z.to_nat maxSteps)%nat /\
  (count is_variableGrads (events r) <= Z.to_nat maxSteps)%nat /\
  (8 * count is_variableGrads (events r) <= count is_forward (events r))%nat /\
  (steps (final r) <= count is_forward (events r))%nat /\
  (forall k, outcome r = Ok k ->
     k = count is_forward (events r) /\
     k = (8 * count is_variableGrads (events r))%nat).
Proof.
  intros r.
  destruct (train_shape h net cartPole maxSteps s)
    as (tr & tail & Hev & (ok & Hb & Hok) & Htail & Hs & Hk).
  fold r in Hev, Hs, Hk, Hok.
  destruct (tail_counts tail Htail) as (Hf & Hv & _ & _).
  destruct (blocks_budget _ _ _ _ Hb) as (B1 & B2 & B3 & B4 & B5).
  rewrite Hev, !count_app, Hf, Hv.
  split; [lia|]. split; [lia|]. split; [lia|]. split; [lia|].
  intros k Hr. pose proof (Hk k Hr) as ->.
  rewrite Hr in Hok. specialize (B5 (Hok eq_refl)). lia.
Qed.

Lemma train_step_budget_witness :
  let r := Controller.train patched zeroNet countdown 3 100%nat in
  (count is_forward (events r) <= 8 * Z.to_nat 3)%nat /\
  (count is_variableGrads (events r) <= Z.to_nat 3)%nat /\
  (8 * count is_variableGrads (events r) <= count is_forward (events r))%nat /\
  (steps (final r) <= count is_forward (events r))%nat /\
  (24%nat = count is_forward (events r) /\
   24%nat = (8 * count is_variableGrads (events r))%nat).
Proof.
  intros r.
  destruct (train_step_budget patched zeroNet countdown 3 100%nat)
    as (H1 & H2 & H3 & H4 & H5).
  fold r in H1, H2, H3, H4, H5.
  split; [exact H1|]. split; [exact H2|]. split; [exact H3|]. split; [exact H4|].
  apply H5. reflexivity.
Defined.

(** C5, counterexample: a simulator that is done when the episode starts
    still gets eight physics steps and one gradient update before the
    flag is read. *)
Lemma train_updates_simulator_done_at_start :
  sim_isDone countdown 0%nat = true /\
  events (Controller.train patched zeroNet countdown 5 0%nat) =
    repeat Forward 8 ++
    [LossFn; VariableGrads 0; ApplyGradients (OfBlock 0); Dispose (OfBlock 0);
     IsDone true;
     ApplyGradients (OfOuterScope (VObject "gradients"));
     Dispose (OfOuterScope (VObject "gradients"))].
Proof. split; reflexivity. Qed.

(** C5, amended: [_done] is true at theta = thetaThreshold + 0.01; and
    [train] reads the flag [isDone] only at the end of a block, after the
    gradients of that block were applied; once it has read [true] it
    makes no further physics step, obtains no further gradients and
    applies no gradients of a block. *)
Theorem train_stops_after_done_block {S : Type} (h : Host) (net : Net)
    (cartPole : Simulator S) (maxSteps : Z) (s : S)
    (pre post : list Event) (x xd thd : R) (d : bool) :
  CartPole._done (CartPole.at_state x xd (CartPole.thetaThreshold + 0.01) thd d) =
    Ok true /\
  (events (Controller.train h net cartPole maxSteps s) = pre ++ IsDone true :: post ->
   (exists pre' j,
      pre = pre' ++ [VariableGrads j; ApplyGradients (OfBlock j); Dispose (OfBlock j)]) /\
   count is_forward post = 0%nat /\
   count is_variableGrads post = 0%nat /\
   count is_block_update post = 0%nat).
Proof.
  split.
  - apply done_beyond.
    right. pose proof thetaThreshold_pos. rewrite Rabs_pos_eq; lra.
  - intros Heq.
    destruct (train_shape h net cartPole maxSteps s)
      as (tr & tail & Hev & (ok & Hb & _) & Htail & _).
    rewrite Hev in Heq.
    apply app_split_elem in Heq.
    destruct Heq as [[m [_ Hm]]|[m [Htr Hpost]]].
    + destruct (tail_no_elem _ _ _ _ Htail Hm) as [g [H|H]]; discriminate.
    + destruct (blocks_isDone _ _ _ _ Hb _ _ _ Htr) as [Hpre Hm].
      rewrite (Hm eq_refl) in Hpost. simpl in Hpost. subst post.
      split; [exact Hpre|].
      destruct (tail_counts tail Htail) as (H1 & H2 & H3 & _). auto.
Qed.

Lemma train_stops_after_done_block_witness :
  CartPole._done (CartPole.at_state 0 0 (CartPole.thetaThreshold + 0.01) 0 false) =
    Ok true /\
  (exists pre' j,
     repeat Forward 8 ++
     [LossFn; VariableGrads 0; ApplyGradients (OfBlock 0); Dispose (OfBlock 0)] =
     pre' ++ [VariableGrads j; ApplyGradients (OfBlock j); Dispose (OfBlock j)]) /\
  count is_forward
    [ApplyGradients (OfOuterScope (VObject "gradients"));
     Dispose (OfOuterScope (VObject "gradients"))] = 0%nat /\
  count is_variableGrads
    [ApplyGradients (OfOuterScope (VObject "gradients"));
     Dispose (OfOuterScope (VObject "gradients"))] = 0%nat /\
  count is_block_update
    [ApplyGradients (OfOuterScope (VObject "gradients"));
     Dispose (OfOuterScope (VObject "gradients"))] = 0%nat.
Proof.
  destruct (train_stops_after_done_block patched zeroNet countdown 5 0%nat
              (repeat Forward 8 ++
               [LossFn; VariableGrads 0; ApplyGradients (OfBlock 0); Dispose (OfBlock 0)])
              [ApplyGradients (OfOuterScope (VObject "gradients"));
               Dispose (OfOuterScope (VObject "gradients"))]
              0 0 0 false) as [Hd Hrun].
  split; [exact Hd|]. apply Hrun. reflexivity.
Defined.

(** ** The Train button *)

(** The two counts are checked before anything runs. *)
Lemma trainClick_rejects_bad_counts {S : Type} (h : Host) (net : Net)
    (cartPole : Simulator S) (trainIterations maxSteps : option Z)
    (learningRate : option R) (st : Store S) :
  UI.gt trainIterations 0 = false \/ UI.gt maxSteps 1 = false ->
  exists message,
    UI.trainClick h net cartPole trainIterations maxSteps learningRate st =
    (Throw (Error message), st, []).
Proof.
  intros H. unfold UI.trainClick.
  destruct (UI.gt trainIterations 0) eqn:Hi; simpl.
  - destruct H as [H|H]; [discriminate|]. rewrite H. simpl.
    eexists. reflexivity.
  - eexists. reflexivity.
Qed.

(** C7: with 20 iterations, 500 steps and learning rate -0.05 the handler
    raises no validation error: it builds the optimizer with that rate
    and goes on, on the page up to the call of [onIterationEnd], which no
    module declares. *)
Theorem trainClick_accepts_negative_learning_rate (s : CartPole.t) :
  UI.trainClick page zeroNet (cartPoleObject page)
    (Some 20%Z) (Some 500%Z) (Some (-0.05)) (Build_Store s 0) =
  (Throw (ReferenceError "onIterationEnd"), Build_Store s 0, [Adam (Some (-0.05))]).
Proof. reflexivity. Qed.

(** On a host that has the undeclared names and with a simulator that
    steps, the run with the negative rate makes physics steps and applies
    gradients. *)
Example trainClick_negative_rate_trains :
  events (UI.trainClick patched zeroNet countdown
            (Some 1%Z) (Some 2%Z) (Some (-0.05)) (Build_Store 100%nat 0)) =
  [Adam (Some (-0.05)); IterationEnd 0] ++
  repeat Forward 8 ++
  [LossFn; VariableGrads 0; ApplyGradients (OfBlock 0); Dispose (OfBlock 0);
   IsDone false; NextFrame] ++
  repeat Forward 8 ++
  [LossFn; VariableGrads 1; ApplyGradients (OfBlock 1); Dispose (OfBlock 1);
   IsDone false; NextFrame;
   ApplyGradients (OfOuterScope (VObject "gradients"));
   Dispose (OfOuterScope (VObject "gradients"));
   IterationEnd 1; NextFrame; SaveModel].
Proof. reflexivity. Qed.

(** * Further properties of the simulator *)

(** X1: the denominator of the angular acceleration, line 175, lies
    between 0.62 and 0.67 for every angle, so that the division of line
    176 is never by zero.  In exact arithmetic its values run from 41/66
    to 2/3; the bounds leave a margin for the rounding of the float32
    tensors. *)
Theorem bottomTerm_bounds (th : R) :
  0.62 <= CartPole.bottomTerm (cos th) <= 0.67.
Proof.
  unfold CartPole.bottomTerm, CartPole.length, CartPole.frac,
    CartPole.totalMass, CartPole.massCart, CartPole.massPole.
  pose proof (COS_bound th) as [Hl Hu].
  assert (H0 : 0 <= cos th ^ 2) by nra.
  assert (H1 : cos th ^ 2 <= 1) by nra.
  set (c := cos th ^ 2) in *. clearbody c.
  split; lra.
Qed.

(** The step of lines 171-185 on a simulator whose variables are defined:
    the new variables, then the flag read off them. *)
Lemma forward_from_defined (F x xd th thd : R) (d : bool) :
  let term := F + CartPole.poleMoment * thd * thd * sin th / CartPole.totalMass in
  let thetaAcc := CartPole.thetaAcc term (sin th) (cos th) in
  let xAcc := CartPole.xAcc term thetaAcc (cos th) in
  let x1 := CartPole.tau * xd + x in
  let xd1 := CartPole.tau * xAcc + xd in
  let th1 := CartPole.tau * thd + th in
  let thd1 := CartPole.tau * thetaAcc + thd in
  CartPole.forward_from (VTensor F) (CartPole.at_state x xd th thd d) =
  rbind (CartPole._done (CartPole.at_state x1 xd1 th1 thd1 d))
        (fun b => Ok (CartPole.at_state x1 xd1 th1 thd1 b)).
Proof. reflexivity. Qed.

Lemma done_returns (x xd th thd : R) (d : bool) :
  exists b,
    CartPole._done (CartPole.at_state x xd th thd d) = Ok b /\
    (b = true <-> Rabs x > CartPole.xThreshold \/ Rabs th > CartPole.thetaThreshold).
Proof.
  destruct (Rle_dec (Rabs x) CartPole.xThreshold) as [Hx|Hx].
  - destruct (Rle_dec (Rabs th) CartPole.thetaThreshold) as [Ht|Ht].
    + exists false. split; [apply done_inside; assumption|].
      split; [discriminate | intros [H|H]; lra].
    + exists true. split; [apply done_beyond; right; lra|].
      split; [intros _; right; lra | reflexivity].
  - exists true. split; [apply done_beyond; left; lra|].
    split; [intros _; left; lra | reflexivity].
Qed.

Lemma done_ignores_velocities (x xd th thd xd' thd' : R) (d d' : bool) :
  CartPole._done (CartPole.at_state x xd th thd d) =
  CartPole._done (CartPole.at_state x xd' th thd' d').
Proof. reflexivity. Qed.

Lemma js_lt_opp (a b : R) : js_lt (- a) (- b) = js_lt b a.
Proof.
  unfold js_lt. destruct (Rlt_dec (- a) (- b)); destruct (Rlt_dec b a);
    try reflexivity; lra.
Qed.

Lemma done_mirror (x xd th thd : R) (d : bool) :
  CartPole._done (CartPole.at_state (- x) (- xd) (- th) (- thd) d) =
  CartPole._done (CartPole.at_state x xd th thd d).
Proof.
  unfold CartPole._done, CartPole.at_state, js_gt; simpl. f_equal.
  rewrite !js_lt_opp.
  rewrite <- (Ropp_involutive CartPole.xThreshold) at 2.
  rewrite <- (Ropp_involutive CartPole.thetaThreshold) at 2.
  rewrite !js_lt_opp.
  destruct (js_lt CartPole.xThreshold x), (js_lt x (- CartPole.xThreshold)),
    (js_lt CartPole.thetaThreshold th), (js_lt th (- CartPole.thetaThreshold));
    reflexivity.
Qed.

(** X2: the step is mirror symmetric.  Negating the force and the four
    variables negates the four new variables and gives the same flag. *)
Theorem forward_from_mirror (F x xd th thd : R) (d : bool) :
  exists x' xd' th' thd' d',
    CartPole.forward_from (VTensor F) (CartPole.at_state x xd th thd d) =
      Ok (CartPole.at_state x' xd' th' thd' d') /\
    CartPole.forward_from (VTensor (- F))
        (CartPole.at_state (- x) (- xd) (- th) (- thd) d) =
      Ok (CartPole.at_state (- x') (- xd') (- th') (- thd') d').
Proof.
  rewrite !forward_from_defined. cbv zeta.
  rewrite sin_neg, cos_neg.
  set (term := F + CartPole.poleMoment * thd * thd * sin th / CartPole.totalMass).
  set (tA := CartPole.thetaAcc term (sin th) (cos th)).
  set (xA := CartPole.xAcc term tA (cos th)).
  replace (- F + CartPole.poleMoment * - thd * - thd * - sin th / CartPole.totalMass)
    with (- term) by (unfold term, Rdiv; ring).
  replace (CartPole.thetaAcc (- term) (- sin th) (cos th)) with (- tA)
    by (unfold tA, CartPole.thetaAcc, Rdiv; ring).
  replace (CartPole.xAcc (- term) (- tA) (cos th)) with (- xA)
    by (unfold xA, CartPole.xAcc, Rdiv; ring).
  replace (CartPole.tau * - xd + - x) with (- (CartPole.tau * xd + x)) by ring.
  replace (CartPole.tau * - xA + - xd) with (- (CartPole.tau * xA + xd)) by ring.
  replace (CartPole.tau * - thd + - th) with (- (CartPole.tau * thd + th)) by ring.
  replace (CartPole.tau * - tA + - thd) with (- (CartPole.tau * tA + thd)) by ring.
  rewrite done_mirror.
  destruct (done_returns (CartPole.tau * xd + x) (CartPole.tau * xA + xd)
              (CartPole.tau * thd + th) (CartPole.tau * tA + thd) d) as [b [Hb _]].
  rewrite Hb. simpl.
  do 5 eexists. split; reflexivity.
Qed.

(** X3: with the pole upright and at rest and no force, a step leaves
    the pole upright and at rest and keeps the velocity of the cart;
    only the position changes, and the flag is set exactly when the new
    position is beyond the threshold. *)
Theorem forward_from_coasts (x xd : R) (d : bool) :
  exists x' d',
    CartPole.forward_from (VTensor 0) (CartPole.at_state x xd 0 0 d) =
      Ok (CartPole.at_state x' xd 0 0 d') /\
    (d' = true <-> Rabs x' > CartPole.xThreshold).
Proof.
  rewrite forward_from_defined. cbv zeta. rewrite sin_0, cos_0.
  assert (HtA : CartPole.thetaAcc
                  (0 + CartPole.poleMoment * 0 * 0 * 0 / CartPole.totalMass) 0 1 = 0).
  { unfold CartPole.thetaAcc, Rdiv. ring. }
  rewrite HtA.
  assert (HxA : CartPole.xAcc
                  (0 + CartPole.poleMoment * 0 * 0 * 0 / CartPole.totalMass) 0 1 = 0).
  { unfold CartPole.xAcc, Rdiv. ring. }
  rewrite HxA.
  replace (CartPole.tau * 0 + xd) with xd by ring.
  replace (CartPole.tau * 0 + 0) with 0 by ring.
  destruct (done_returns (CartPole.tau * xd + x) xd 0 0 d) as [b [Hd Hiff]].
  rewrite Hd. simpl. exists (CartPole.tau * xd + x), b. split; [reflexivity|].
  rewrite Hiff. pose proof thetaThreshold_pos. rewrite Rabs_R0.
  split; [intros [H'|H']; [exact H' | lra] | intros H'; left; exact H'].
Qed.

(** X4: the force of a step has no part in whether the step sets the
    flag.  From the same variables, steps with two forces store the same
    new position and the same new angle and set the same flag, and the
    flag is set exactly when the stored position or the stored angle is
    beyond its threshold. *)
Theorem forward_from_flag (F1 F2 x xd th thd : R) (d : bool) :
  exists s1 s2 x' th',
    CartPole.forward_from (VTensor F1) (CartPole.at_state x xd th thd d) = Ok s1 /\
    CartPole.forward_from (VTensor F2) (CartPole.at_state x xd th thd d) = Ok s2 /\
    CartPole.x s1 = Some x' /\ CartPole.x s2 = Some x' /\
    CartPole.theta s1 = Some th' /\ CartPole.theta s2 = Some th' /\
    CartPole.isDone s1 = CartPole.isDone s2 /\
    (CartPole.isDone s1 = true <->
     Rabs x' > CartPole.xThreshold \/ Rabs th' > CartPole.thetaThreshold).
Proof.
  rewrite !forward_from_defined. cbv zeta.
  set (x1 := CartPole.tau * xd + x). set (th1 := CartPole.tau * thd + th).
  destruct (done_returns x1 0 th1 0 d) as [fl [Hd Hiff]].
  repeat match goal with
  | |- context [CartPole._done (CartPole.at_state x1 ?b th1 ?e d)] =>
      lazymatch b with
      | 0 => fail
      | _ => rewrite (done_ignores_velocities x1 b th1 e 0 0 d d)
      end
  end.
  rewrite Hd. simpl.
  do 2 eexists. exists x1, th1.
  split; [reflexivity|]. split; [reflexivity|]. simpl.
  repeat (split; [reflexivity|]). exact Hiff.
Qed.

(** X7: [_done] returns exactly when position and angle are defined,
    and the step of lines 171-185 exactly when the force is a tensor and
    all four variables are defined; so on the simulator that the
    constructor returns both throw, as does [lossFn]. *)
Theorem methods_need_defined_state (h : Host) (s : CartPole.t) (force : JsVal) :
  (is_ok (CartPole._done s) = true <->
   CartPole.x s <> None /\ CartPole.theta s <> None) /\
  (is_ok (CartPole.forward_from force s) = true <->
   (exists F, force = VTensor F) /\
   CartPole.x s <> None /\ CartPole.xDot s <> None /\
   CartPole.theta s <> None /\ CartPole.thetaDot s <> None) /\
  (exists s0,
     CartPole.new h = Ok s0 /\
     is_ok (CartPole.lossFn s0) = false /\
     is_ok (CartPole._done s0) = false /\
     is_ok (CartPole.forward_from force s0) = false).
Proof.
  destruct s as [x xd th thd d].
  split; [|split].
  - unfold CartPole._done; simpl.
    destruct x, th; simpl; split; try discriminate; try reflexivity;
      try (intros [? ?]; congruence); intros _; split; discriminate.
  - unfold CartPole.forward_from; simpl.
    destruct th as [th|]; simpl;
      [|split; [discriminate | intros (_ & _ & _ & H & _); congruence]].
    destruct thd as [thd|]; simpl;
      [|split; [discriminate | intros (_ & _ & _ & _ & H); congruence]].
    destruct force as [|n|F|tag]; simpl;
      try (split; [discriminate | intros ([F' HF] & _); discriminate]).
    destruct xd as [xd|]; simpl;
      [|split; [discriminate | intros (_ & _ & H & _); congruence]].
    destruct x as [x|]; simpl;
      [|split; [discriminate | intros (_ & H & _); congruence]].
    split; [|reflexivity].
    intros _. split; [exists F; reflexivity|]. repeat split; discriminate.
  - exists (CartPole.mk None None None None false).
    split; [reflexivity|]. repeat split.
Qed.



(** * Further properties of the training loop *)

Lemma blocks_disposed_were_applied (n j : nat) (ok : bool) (tr : list Event) :
  Blocks n j ok tr ->
  forall pre post g,
    tr = pre ++ Dispose g :: post ->
    exists pre', pre = pre' ++ [ApplyGradients g].
Proof.
  induction 1 as [n j | n j tr Hq Hc | n j tr Hq Hc | n j ok tr rest Hq Hc Hb IH];
    intros pre post g Heq.
  - destruct pre; discriminate.
  - apply (quiet_no_elem _ _ _ _ Hq) in Heq. discriminate.
  - apply split_after_quiet in Heq; auto.
    destruct Heq as [m [-> Hm]].
    do 2 peel Hm m.
    destruct m as [|e2 m].
    + injection Hm as Hg _. subst g.
      exists (tr ++ [VariableGrads j]). rewrite <- app_assoc. reflexivity.
    + exfalso. injection Hm as _ Hm. peel Hm m. destruct m; discriminate.
  - apply split_after_quiet in Heq; auto.
    destruct Heq as [m [-> Hm]].
    change (VariableGrads j :: ApplyGradients (OfBlock j) :: Dispose (OfBlock j)
              :: IsDone false :: NextFrame :: rest)
      with ([VariableGrads j; ApplyGradients (OfBlock j); Dispose (OfBlock j);
             IsDone false; NextFrame] ++ rest) in Hm.
    apply app_split_elem in Hm.
    destruct Hm as [[m2 [-> Hrest]]|[m2 [Hm Hpost]]].
    + destruct (IH _ _ _ Hrest) as [pre' ->].
      exists (tr ++ [VariableGrads j; ApplyGradients (OfBlock j); Dispose (OfBlock j);
                     IsDone false; NextFrame] ++ pre').
      rewrite <- !app_assoc. reflexivity.
    + do 2 peel Hm m.
      destruct m as [|e2 m].
      * injection Hm as Hg _. subst g.
        exists (tr ++ [VariableGrads j]). rewrite <- app_assoc. reflexivity.
      * exfalso. injection Hm as _ Hm. do 2 peel Hm m. destruct m; discriminate.
Qed.

(** X9: in every call of [train], what is disposed of are gradients
    that were passed to the optimizer just before: the gradients of a
    block and whatever line 59 applies alike. *)
Theorem train_disposes_what_it_applies {S : Type} (h : Host) (net : Net)
    (cartPole : Simulator S) (maxSteps : Z) (s : S)
    (pre post : list Event) (g : GradArg) :
  events (Controller.train h net cartPole maxSteps s) =
    pre ++ Dispose g :: post ->
  exists pre', pre = pre' ++ [ApplyGradients g].
Proof.
  destruct (train_shape h net cartPole maxSteps s)
    as (tr & tail & Hev & (ok & Hb & _) & Htail & _).
  rewrite Hev. intros Heq. apply app_split_elem in Heq.
  destruct Heq as [[m [-> Hm]]|[m [Htr Hpost]]].
  - destruct Htail as [->|[g0 ->]]; [destruct m; discriminate|].
    peel Hm m.
    destruct m as [|e1 m].
    + injection Hm as Hg _. subst g.
      exists tr. reflexivity.
    + exfalso. injection Hm as _ Hm. destruct m; discriminate.
  - exact (blocks_disposed_were_applied _ _ _ _ Hb _ _ _ Htr).
Qed.

Lemma train_disposes_what_it_applies_witness :
  exists pre',
    repeat Forward 8 ++
    [LossFn; VariableGrads 0; ApplyGradients (OfBlock 0)] =
    pre' ++ [ApplyGradients (OfBlock 0)].
Proof.
  apply (train_disposes_what_it_applies patched zeroNet countdown 1 100%nat
           (repeat Forward 8 ++
            [LossFn; VariableGrads 0; ApplyGradients (OfBlock 0)])
           [IsDone false; NextFrame;
            ApplyGradients (OfOuterScope (VObject "gradients"));
            Dispose (OfOuterScope (VObject "gradients"))]
           (OfBlock 0)).
  reflexivity.
Defined.

Lemma episode_needs_cartPoleSystem {S : Type} (h : Host) (net : Net)
    (cartPole : Simulator S) (n j : nat) (st : Store S) :
  assoc "cartPoleSystem" (globalThis h) = None ->
  Controller.episode h net cartPole (Datatypes.S n) j st =
  (Throw (ReferenceError "cartPoleSystem"), st, []).
Proof.
  intros Hc. simpl. unfold bind, lift, free_identifier. rewrite Hc. reflexivity.
Qed.

(** X10: a call of [train] returns a count only on a host whose global
    object has a property [gradients], and, when [maxSteps >= 1], a
    property [cartPoleSystem] as well. *)
Theorem train_returns_only_with_globals {S : Type} (h : Host) (net : Net)
    (cartPole : Simulator S) (maxSteps : Z) (s : S) (k : nat) :
  outcome (Controller.train h net cartPole maxSteps s) = Ok k ->
  assoc "gradients" (globalThis h) <> None /\
  ((1 <= maxSteps)%Z -> assoc "cartPoleSystem" (globalThis h) <> None).
Proof.
  unfold Controller.train, Controller.train_body.
  unfold bind, set_steps, update_sim, emit, get_steps, lift; simpl.
  destruct (sim_setRandomState cartPole h s) as [s'|e]; simpl; [|discriminate].
  intros Hok. split.
  - intros Hg.
    destruct (Controller.episode h net cartPole (Z.to_nat maxSteps) 0 _)
      as [[[[]|e] st1] tr1]; simpl in Hok; [|discriminate].
    unfold free_identifier in Hok. rewrite Hg in Hok. discriminate.
  - intros Hm Hc.
    destruct (Z.to_nat maxSteps) as [|n] eqn:Hn; [lia|].
    rewrite (episode_needs_cartPoleSystem h net cartPole n 0 _ Hc) in Hok.
    discriminate.
Qed.

Lemma train_returns_only_with_globals_witness :
  assoc "gradients" (globalThis patched) <> None /\
  ((1 <= 1)%Z -> assoc "cartPoleSystem" (globalThis patched) <> None).
Proof.
  apply (train_returns_only_with_globals patched zeroNet countdown 1 100%nat 8).
  reflexivity.
Defined.

(** A simulator whose [forward] throws. *)
Section ThrowingForward.

Context {S : Type}.
Variable h : Host.
Variable net : Net.
Variable cartPole : Simulator S.
Hypothesis forward_fails : forall s, is_ok (sim_forward cartPole net s) = false.

Lemma unroll_throws (k : nat) (st : Store S) :
  exists e,
    Controller.unroll net cartPole (Datatypes.S k) st = (Throw e, st, [Forward]).
Proof.
  simpl. unfold bind, emit, update_sim.
  pose proof (forward_fails (sim st)) as Hf.
  destruct (sim_forward cartPole net (sim st)) as [s'|e]; [discriminate|].
  exists e. reflexivity.
Qed.

Lemma f_throws (st : Store S) :
  exists e, Controller.f net cartPole st = (Throw e, st, [Forward]).
Proof.
  unfold Controller.f, Controller.seqLength, bind.
  destruct (unroll_throws 7 st) as [e ->]. exists e. reflexivity.
Qed.

Lemma episode_throws (n j : nat) (st : Store S) :
  exists e tr,
    Controller.episode h net cartPole (Datatypes.S n) j st = (Throw e, st, tr) /\
    Forall (fun e => quiet e = true) tr /\
    (count is_forward tr <= 1)%nat.
Proof.
  simpl. unfold bind at 1. unfold lift.
  destruct (free_identifier h "cartPoleSystem") as [v|e]; unfold ret, throw.
  2:{ exists e, []. split; [reflexivity|]. split; [constructor|]. unfold count; simpl; lia. }
  unfold bind at 1.
  unfold Controller.maybeRenderDuringTraining.
  destruct (renderDuringTraining h).
  - destruct (renderCartPole h v) as [e|].
    + exists e, []. split; [reflexivity|]. split; [constructor|].
      unfold count; simpl; lia.
    + unfold bind at 1. unfold emit at 1 2. simpl.
      unfold bind at 1. destruct (f_throws st) as [e ->].
      exists e, [Render v; NextFrame; Forward].
      split; [reflexivity|]. split; [repeat constructor|].
      unfold count; simpl; lia.
  - unfold ret. simpl.
    unfold bind at 1. destruct (f_throws st) as [e ->].
    exists e, [Forward].
    split; [reflexivity|]. split; [repeat constructor|].
    unfold count; simpl; lia.
Qed.

Lemma train_with_throwing_forward (maxSteps : Z) (s s' : S) :
  sim_setRandomState cartPole h s = Ok s' ->
  let r := Controller.train h net cartPole maxSteps s in
  count is_variableGrads (events r) = 0%nat /\
  count is_block_update (events r) = 0%nat /\
  (count is_forward (events r) <= 1)%nat /\
  final r = Build_Store s' 0 /\
  ((1 <= maxSteps)%Z -> is_ok (outcome r) = false).
Proof.
  intros Hs r. subst r.
  unfold Controller.train, Controller.train_body.
  unfold bind, set_steps, update_sim, emit, get_steps, lift; simpl. rewrite Hs.
  destruct (Z.to_nat maxSteps) as [|n] eqn:Hn.
  - simpl.
    destruct (free_identifier h "gradients") as [g|e]; unfold ret, throw;
      unfold events, final, outcome, count; simpl;
      (split; [reflexivity|]); (split; [reflexivity|]); (split; [lia|]);
      (split; [reflexivity|]); intros Hm; exfalso; lia.
  - destruct (episode_throws n 0 (Build_Store s' 0)) as (e & tr & Heq & Hq & Hc).
    rewrite Heq.
    unfold events, final, outcome; simpl.
    rewrite (count_quiet is_variableGrads), (count_quiet is_block_update)
      by auto using quiet_not_grads, quiet_not_block_update.
    split; [reflexivity|]. split; [reflexivity|]. split; [lia|].
    split; reflexivity.
Qed.

End ThrowingForward.

Lemma cartPole_forward_fails (h : Host) (net : Net) (s : CartPole.t) :
  is_ok (CartPole.forward h net s) = false.
Proof.
  unfold CartPole.forward.
  destruct (free_identifier h "inputs") as [v|e]; simpl; [|reflexivity].
  destruct (net v) as [p|e]; simpl; [|reflexivity].
  destruct (js_times_number p (VTensor CartPole.forceMag)) as [n ->].
  destruct (forward_from_number n s) as [e ->]. reflexivity.
Qed.

(** X11: whatever the global object of the host has, a call of [train]
    on an instance of class [CartPole] obtains and applies no gradients
    of a block, calls [forward] at most once, leaves the simulator and
    its step count as they were, and, when [maxSteps >= 1], raises. *)
Theorem train_never_trains_cartPole (h : Host) (net : Net) (maxSteps : Z)
    (s : CartPole.t) :
  let r := Controller.train h net (cartPoleObject h) maxSteps s in
  count is_variableGrads (events r) = 0%nat /\
  count is_block_update (events r) = 0%nat /\
  (count is_forward (events r) <= 1)%nat /\
  final r = Build_Store s 0 /\
  ((1 <= maxSteps)%Z -> is_ok (outcome r) = false).
Proof.
  apply (train_with_throwing_forward h net (cartPoleObject h)).
  - intros s0. apply cartPole_forward_fails.
  - reflexivity.
Qed.

Lemma train_never_trains_cartPole_witness :
  let r := Controller.train patched zeroNet (cartPoleObject patched) 500
             (CartPole.at_state 0 0 0 0 false) in
  count is_variableGrads (events r) = 0%nat /\
  count is_block_update (events r) = 0%nat /\
  (count is_forward (events r) <= 1)%nat /\
  final r = Build_Store (CartPole.at_state 0 0 0 0 false) 0 /\
  is_ok (outcome r) = false.
Proof.
  intros r.
  destruct (train_never_trains_cartPole patched zeroNet 500
              (CartPole.at_state 0 0 0 0 false)) as (H1 & H2 & H3 & H4 & H5).
  fold r in H1, H2, H3, H4, H5.
  repeat (split; [assumption|]). apply H5. lia.
Defined.

(** An event of [m ;; k] is an event of [m], or of [k] run on what [m]
    returned. *)
Lemma in_bind {S A B : Type} (m : M S A) (k : A -> M S B) (st : Store S)
    (e : Event) :
  In e (events (bind m k st)) ->
  In e (events (m st)) \/
  exists a st1 tr1, m st = (Ok a, st1, tr1) /\ In e (events (k a st1)).
Proof.
  unfold bind, events.
  destruct (m st) as [[[a|err] st1] tr1]; simpl; [|auto].
  destruct (k a st1) as [[r st2] tr2] eqn:Hk; simpl.
  intros H. apply in_app_or in H. destruct H as [H|H]; [auto|].
  right. exists a, st1, tr1. rewrite Hk. auto.
Qed.

Lemma in_emit {S : Type} (e' e : Event) (st : Store S) :
  In e (events (emit e' st)) -> e = e'.
Proof. simpl. intros [H|[]]. auto. Qed.

Lemma unroll_events {S : Type} (net : Net) (cartPole : Simulator S) (k : nat)
    (st : Store S) (e : Event) :
  In e (events (Controller.unroll net cartPole k st)) -> e = Forward.
Proof.
  revert st. induction k as [|k IH]; intros st H; simpl in H; [contradiction|].
  apply in_bind in H. destruct H as [H|(a & st1 & tr1 & _ & H)];
    [apply in_emit in H; exact H|].
  apply in_bind in H. destruct H as [H|(a2 & st2 & tr2 & _ & H)].
  { unfold update_sim, events in H.
    destruct (sim_forward cartPole net (sim st1)); simpl in H; contradiction. }
  apply in_bind in H. destruct H as [H|(a3 & st3 & tr3 & _ & H)];
    [simpl in H; contradiction|].
  exact (IH _ H).
Qed.

Lemma f_events {S : Type} (net : Net) (cartPole : Simulator S)
    (st : Store S) (e : Event) :
  In e (events (Controller.f net cartPole st)) -> e = Forward \/ e = LossFn.
Proof.
  unfold Controller.f. intros H.
  apply in_bind in H. destruct H as [H|(a & st1 & tr1 & _ & H)];
    [left; exact (unroll_events _ _ _ _ _ H)|].
  apply in_bind in H. destruct H as [H|(a2 & st2 & tr2 & _ & H)];
    [right; exact (in_emit _ _ _ H)|].
  apply in_bind in H. destruct H as [H|(a3 & st3 & tr3 & _ & H)];
    [simpl in H; contradiction|].
  unfold lift, events in H. destruct a3; simpl in H; contradiction.
Qed.

Lemma episode_renders {S : Type} (h : Host) (net : Net) (cartPole : Simulator S)
    (n j : nat) (st : Store S) (v : JsVal) :
  In (Render v) (events (Controller.episode h net cartPole n j st)) ->
  renderDuringTraining h = true /\
  assoc "cartPoleSystem" (globalThis h) = Some v /\
  renderCartPole h v = None.
Proof.
  revert j st. induction n as [|n IH]; intros j st H; simpl in H; [contradiction|].
  apply in_bind in H. destruct H as [H|(v0 & st1 & tr1 & Hv & H)].
  { unfold lift, events in H.
    destruct (free_identifier h "cartPoleSystem"); simpl in H; contradiction. }
  assert (Hglobal : assoc "cartPoleSystem" (globalThis h) = Some v0).
  { unfold lift, free_identifier in Hv.
    destruct (assoc "cartPoleSystem" (globalThis h)); [|discriminate].
    unfold ret in Hv. congruence. }
  apply in_bind in H. destruct H as [H|(a2 & st2 & tr2 & _ & H)].
  { unfold Controller.maybeRenderDuringTraining in H.
    destruct (renderDuringTraining h); [|simpl in H; contradiction].
    destruct (renderCartPole h v0) eqn:Hr; [simpl in H; contradiction|].
    simpl in H. destruct H as [H|[H|[]]]; [|discriminate].
    injection H as <-. auto. }
  apply in_bind in H. destruct H as [H|(a3 & st3 & tr3 & _ & H)].
  { apply f_events in H. destruct H; discriminate. }
  apply in_bind in H. destruct H as [H|(a4 & st4 & tr4 & _ & H)];
    [apply in_emit in H; discriminate|].
  apply in_bind in H. destruct H as [H|(a5 & st5 & tr5 & _ & H)];
    [apply in_emit in H; discriminate|].
  apply in_bind in H. destruct H as [H|(a6 & st6 & tr6 & _ & H)];
    [apply in_emit in H; discriminate|].
  apply in_bind in H. destruct H as [H|(fl & st7 & tr7 & _ & H)];
    [simpl in H; contradiction|].
  apply in_bind in H. destruct H as [H|(a8 & st8 & tr8 & _ & H)];
    [apply in_emit in H; discriminate|].
  destruct fl; [simpl in H; contradiction|].
  apply in_bind in H. destruct H as [H|(a9 & st9 & tr9 & _ & H)];
    [apply in_emit in H; discriminate|].
  exact (IH _ _ H).
Qed.

(** X12: what a call of [train] renders is the value of the global
    [cartPoleSystem], whatever simulator it was given to train, and it
    renders only while the checkbox is on and [renderCartPole] returns. *)
Theorem train_renders_the_global {S : Type} (h : Host) (net : Net)
    (cartPole : Simulator S) (maxSteps : Z) (s : S) (v : JsVal) :
  In (Render v) (events (Controller.train h net cartPole maxSteps s)) ->
  renderDuringTraining h = true /\
  assoc "cartPoleSystem" (globalThis h) = Some v /\
  renderCartPole h v = None.
Proof.
  unfold Controller.train, Controller.train_body. intros H.
  apply in_bind in H. destruct H as [H|(a1 & st1 & tr1 & _ & H)];
    [simpl in H; contradiction|].
  apply in_bind in H. destruct H as [H|(a2 & st2 & tr2 & _ & H)].
  { unfold update_sim, events in H.
    destruct (sim_setRandomState cartPole h (sim st1)); simpl in H; contradiction. }
  apply in_bind in H. destruct H as [H|(a3 & st3 & tr3 & _ & H)];
    [exact (episode_renders _ _ _ _ _ _ _ H)|].
  apply in_bind in H. destruct H as [H|(g & st4 & tr4 & _ & H)].
  { unfold lift, events in H.
    destruct (free_identifier h "gradients"); simpl in H; contradiction. }
  apply in_bind in H. destruct H as [H|(a5 & st5 & tr5 & _ & H)];
    [apply in_emit in H; discriminate|].
  apply in_bind in H. destruct H as [H|(a6 & st6 & tr6 & _ & H)];
    [apply in_emit in H; discriminate|].
  simpl in H. contradiction.
Qed.

Lemma train_renders_the_global_witness :
  renderDuringTraining patched_rendering = true /\
  assoc "cartPoleSystem" (globalThis patched_rendering) =
    Some (VObject "cartPoleSystem") /\
  renderCartPole patched_rendering (VObject "cartPoleSystem") = None.
Proof.
  apply (train_renders_the_global patched_rendering zeroNet countdown 1 100%nat).
  left. reflexivity.
Defined.

(** * Further properties of the Train button *)

Lemma events_emit_bind {S B : Type} (e : Event) (k : unit -> M S B)
    (st : Store S) :
  events (bind (emit e) k st) = e :: events (k tt st).
Proof.
  unfold bind, emit, events. destruct (k tt st) as [[r st2] tr2]. reflexivity.
Qed.

(** X13: a click on the button while it does not read Stop, with a
    number of iterations that is not a number or not above 0, or else
    with a maximum of steps that is not a number or not above 1, leaves
    the button reading Stop and throws, with the message of the first
    check that fails, before the optimizer is built and before any step
    of the simulation, update or save; with both counts valid the
    optimizer is built, with the learning rate as parsed, before any of
    these.  (The messages of [logStatus] are not events.) *)
Theorem click_validation {S : Type} (h : Host) (net : Net)
    (cartPole : Simulator S) (text : string) (i : TrainButton.Inputs)
    (st : Store S) :
  text <> "Stop"%string ->
  let valid_iterations :=
    exists n, TrainButton.trainIterations i = Some n /\ (0 < n)%Z in
  let valid_steps :=
    exists m, TrainButton.maxSteps i = Some m /\ (1 < m)%Z in
  (~ valid_iterations ->
   TrainButton.click h net cartPole text i st =
   ("Stop"%string, (Throw (Error "Invalid number of iterations"), st, []))) /\
  (valid_iterations -> ~ valid_steps ->
   TrainButton.click h net cartPole text i st =
   ("Stop"%string, (Throw (Error "Invalid max. steps per game"), st, []))) /\
  (valid_iterations -> valid_steps ->
   exists tr,
     events (snd (TrainButton.click h net cartPole text i st)) =
     Adam (TrainButton.learningRate i) :: tr).
Proof.
  intros Htext vi vs. subst vi vs.
  destruct i as [ti ms lr]. cbn [TrainButton.trainIterations TrainButton.maxSteps
                                 TrainButton.learningRate].
  unfold TrainButton.click.
  apply String.eqb_neq in Htext. rewrite Htext.
  cbn [TrainButton.trainIterations TrainButton.maxSteps TrainButton.learningRate].
  unfold UI.trainClick.
  assert (Hti : UI.gt ti 0 = true <-> exists n, ti = Some n /\ (0 < n)%Z).
  { destruct ti as [n|]; simpl.
    - rewrite Z.ltb_lt. split; [eauto | intros (n' & Hn & Hlt); congruence].
    - split; [discriminate | intros (n' & Hn & _); discriminate]. }
  assert (Hms : UI.gt ms 1 = true <-> exists m, ms = Some m /\ (1 < m)%Z).
  { destruct ms as [m|]; simpl.
    - rewrite Z.ltb_lt. split; [eauto | intros (m' & Hm & Hlt); congruence].
    - split; [discriminate | intros (m' & Hm & _); discriminate]. }
  split; [|split].
  - intros Hn. destruct (UI.gt ti 0); [|reflexivity].
    exfalso. apply Hn, Hti. reflexivity.
  - intros Hv Hn. apply Hti in Hv. rewrite Hv. simpl.
    destruct (UI.gt ms 1); [|reflexivity].
    exfalso. apply Hn, Hms. reflexivity.
  - intros Hv Hv'. apply Hti in Hv. apply Hms in Hv'. rewrite Hv, Hv'.
    cbn [negb].
    match goal with
    | |- context [outcome ?r] =>
        assert (He : exists tr, events r = Adam lr :: tr)
          by (rewrite events_emit_bind; eexists; reflexivity);
        destruct (outcome r)
    end; exact He.
Qed.

Lemma click_validation_witness :
  TrainButton.click page zeroNet (cartPoleObject page) "Train"
    (TrainButton.Build_Inputs None (Some 500%Z) (Some 0.05))
    (Build_Store (CartPole.mk None None None None false) 0) =
  ("Stop"%string,
   (Throw (Error "Invalid number of iterations"),
    Build_Store (CartPole.mk None None None None false) 0, [])) /\
  TrainButton.click page zeroNet (cartPoleObject page) "Train"
    (TrainButton.Build_Inputs (Some 20%Z) (Some 1%Z) (Some 0.05))
    (Build_Store (CartPole.mk None None None None false) 0) =
  ("Stop"%string,
   (Throw (Error "Invalid max. steps per game"),
    Build_Store (CartPole.mk None None None None false) 0, [])) /\
  (exists tr,
     events (snd (TrainButton.click page zeroNet (cartPoleObject page) "Train"
                    (TrainButton.Build_Inputs (Some 20%Z) (Some 500%Z) (Some 0.05))
                    (Build_Store (CartPole.mk None None None None false) 0))) =
     Adam (Some 0.05) :: tr).
Proof.
  split; [|split].
  - apply (proj1 (click_validation page zeroNet (cartPoleObject page) "Train"
                    (TrainButton.Build_Inputs None (Some 500%Z) (Some 0.05))
                    (Build_Store (CartPole.mk None None None None false) 0)
                    ltac:(discriminate))).
    intros (n & Hn & _). discriminate.
  - apply (proj1 (proj2 (click_validation page zeroNet (cartPoleObject page) "Train"
                           (TrainButton.Build_Inputs (Some 20%Z) (Some 1%Z) (Some 0.05))
                           (Build_Store (CartPole.mk None None None None false) 0)
                           ltac:(discriminate)))).
    + exists 20%Z. split; [reflexivity | lia].
    + intros (m & Hm & Hlt). injection Hm as <-. lia.
  - apply (proj2 (proj2 (click_validation page zeroNet (cartPoleObject page) "Train"
                           (TrainButton.Build_Inputs (Some 20%Z) (Some 500%Z) (Some 0.05))
                           (Build_Store (CartPole.mk None None None None false) 0)
                           ltac:(discriminate)))).
    + exists 20%Z. split; [reflexivity | lia].
    + exists 500%Z. split; [reflexivity | lia].
Defined.

Lemma count_bind {S A B : Type} (p : Event -> bool) (m : M S A)
    (k : A -> M S B) (st : Store S) :
  count p (events (bind m k st)) =
  (count p (events (m st)) +
   match m st with
   | (Ok a, st1, _) => count p (events (k a st1))
   | (Throw _, _, _) => 0
   end)%nat.
Proof.
  unfold bind, events.
  destruct (m st) as [[[a|e] st1] tr1]; simpl; [|lia].
  destruct (k a st1) as [[r st2] tr2]; simpl. apply count_app.
Qed.

Lemma blocks_no_save (n j : nat) (ok : bool) (tr : list Event) :
  Blocks n j ok tr -> count is_saveModel tr = 0%nat.
Proof.
  assert (Hq : forall e, is_saveModel e = true -> quiet e = false)
    by (intros []; simpl; congruence).
  induction 1 as [n j | n j tr Hqt Hc | n j tr Hqt Hc | n j ok tr rest Hqt Hc Hb IH].
  - reflexivity.
  - apply count_quiet; auto.
  - rewrite count_app, (count_quiet _ tr) by auto. reflexivity.
  - rewrite !count_app, (count_quiet _ tr), IH by auto. reflexivity.
Qed.

Lemma train_body_resets {S : Type} (h : Host) (net : Net)
    (cartPole : Simulator S) (maxSteps : Z) (st : Store S) :
  Controller.train_body h net cartPole maxSteps st =
  Controller.train h net cartPole maxSteps (sim st).
Proof. reflexivity. Qed.

Lemma train_body_no_save {S : Type} (h : Host) (net : Net)
    (cartPole : Simulator S) (maxSteps : Z) (st : Store S) :
  count is_saveModel (events (Controller.train_body h net cartPole maxSteps st)) = 0%nat.
Proof.
  rewrite train_body_resets.
  destruct (train_shape h net cartPole maxSteps (sim st))
    as (tr & tail & Hev & (ok & Hb & _) & Htail & _).
  rewrite Hev, count_app, (blocks_no_save _ _ _ _ Hb).
  destruct Htail as [->|[g ->]]; reflexivity.
Qed.




Lemma iterations_first_train_throws {S : Type} (h : Host) (net : Net)
    (cartPole : Simulator S) (maxSteps : Z) (n i : nat) (st st1 : Store S)
    (e : JsError) (tr : list Event) :
  Controller.train_body h net cartPole maxSteps st = (Throw e, st1, tr) ->
  UI.iterations h net cartPole (Datatypes.S n) i maxSteps st = (Throw e, st1, tr).
Proof.
  intros H. cbn [UI.iterations]. unfold bind at 1. rewrite H. reflexivity.
Qed.

(** X15: whatever the inputs and whatever the global object of the host
    has, a click on Train with an instance of class [CartPole] ends in
    an error: it never saves the model, never applies the gradients of a
    block, calls [forward] at most once and leaves the variables of the
    simulator as they were. *)
Theorem trainClick_never_completes_with_cartPole (h : Host) (net : Net)
    (ti ms : option Z) (lr : option R) (st : Store CartPole.t) :
  let r := UI.trainClick h net (cartPoleObject h) ti ms lr st in
  is_ok (outcome r) = false /\
  count is_saveModel (events r) = 0%nat /\
  count is_block_update (events r) = 0%nat /\
  (count is_forward (events r) <= 1)%nat /\
  sim (final r) = sim st.
Proof.
  intros r. subst r. unfold UI.trainClick.
  destruct ti as [n|]; simpl; [|repeat split; apply Nat.le_0_l].
  destruct (0 <? n)%Z eqn:Hn; simpl; [|repeat split; apply Nat.le_0_l].
  destruct ms as [m|]; simpl; [|repeat split; apply Nat.le_0_l].
  destruct (1 <? m)%Z eqn:Hm; simpl; [|repeat split; apply Nat.le_0_l].
  apply Z.ltb_lt in Hn. apply Z.ltb_lt in Hm.
  unfold bind, lift, UI.call_free, emit.
  destruct (free_identifier h "onIterationEnd") as [v|e]; unfold ret, throw; simpl;
    [|repeat split; unfold count; simpl; lia].
  destruct v; simpl; try (repeat split; unfold count; simpl; lia).
  destruct (Z.to_nat n) as [|k] eqn:Hk; [lia|].
  pose proof (train_with_throwing_forward h net (cartPoleObject h)
                (cartPole_forward_fails h net) m (sim st) (sim st) eq_refl) as Ht.
  cbv zeta in Ht. rewrite <- train_body_resets in Ht.
  destruct (Controller.train_body h net (cartPoleObject h) m st)
    as [[[c|e] st1] tr1] eqn:Hrun;
    unfold events, final, outcome in Ht; simpl in Ht;
    destruct Ht as (H1 & H2 & H3 & H4 & H5);
    [specialize (H5 ltac:(lia)); discriminate|].
  rewrite (iterations_first_train_throws h net (cartPoleObject h) m k 0 st st1 e tr1 Hrun).
  unfold events, final, outcome; simpl.
  rewrite !count_cons. simpl.
  assert (Hs : count is_saveModel tr1 = 0%nat).
  { pose proof (train_body_no_save h net (cartPoleObject h) m st) as Hsave.
    rewrite Hrun in Hsave. exact Hsave. }
  rewrite Hs, H2, H4. simpl.
  split; [reflexivity|]. split; [reflexivity|]. split; [reflexivity|].
  split; [exact H3 | reflexivity].
Qed.

Lemma session_from_stop {S : Type} (h : Host) (net : Net)
    (cartPole : Simulator S) (clicks : list TrainButton.Inputs) (st : Store S) :
  TrainButton.session h net cartPole "Stop" clicks st = ("Stop"%string, st, []).
Proof.
  induction clicks as [|i clicks IH]; [reflexivity|].
  change (TrainButton.session h net cartPole "Stop" (i :: clicks) st)
    with (match TrainButton.session h net cartPole "Stop" clicks st with
          | (text2, st2, tr2) => (text2, st2, [] ++ tr2)
          end).
  rewrite IH. reflexivity.
Qed.

(** X16: a click on Train whose run ends in an error leaves the button
    reading Stop, and from then on no click validates anything, runs
    anything or changes the text back: the clicks that follow add no
    event and leave the store as the failed run left it. *)
Theorem failed_click_wedges_the_button {S : Type} (h : Host) (net : Net)
    (cartPole : Simulator S) (i : TrainButton.Inputs)
    (clicks : list TrainButton.Inputs) (st : Store S) :
  let r := UI.trainClick h net cartPole
             (TrainButton.trainIterations i) (TrainButton.maxSteps i)
             (TrainButton.learningRate i) st in
  is_ok (outcome r) = false ->
  TrainButton.session h net cartPole "Train" (i :: clicks) st =
  ("Stop"%string, final r, events r).
Proof.
  intros r Hr. cbn [TrainButton.session]. unfold TrainButton.click.
  change (String.eqb "Train" "Stop") with false. cbv iota zeta.
  fold r. destruct (outcome r) eqn:Ho; [discriminate|].
  rewrite session_from_stop. rewrite app_nil_r. reflexivity.
Qed.

Lemma failed_click_wedges_the_button_witness :
  TrainButton.session page zeroNet (cartPoleObject page) "Train"
    [TrainButton.Build_Inputs (Some 20%Z) (Some 500%Z) (Some 0.05);
     TrainButton.Build_Inputs (Some 20%Z) (Some 500%Z) (Some 0.05)]
    (Build_Store (CartPole.mk None None None None false) 0) =
  ("Stop"%string,
   Build_Store (CartPole.mk None None None None false) 0,
   [Adam (Some 0.05)]).
Proof.
  apply (failed_click_wedges_the_button page zeroNet (cartPoleObject page)
           (TrainButton.Build_Inputs (Some 20%Z) (Some 500%Z) (Some 0.05))).
  reflexivity.
Defined.

(** * Properties of the stored model *)

Lemma listed_without {Model : Type} (url : string)
    (store : SaveableController.ModelStore Model) :
  SaveableController.listed Model url (SaveableController.without Model url store) = None.
Proof.
  induction store as [|[k v] store IH]; simpl; [reflexivity|].
  destruct (String.eqb url k) eqn:E; [exact IH|].
  simpl. rewrite E. exact IH.
Qed.

Lemma listed_without_other {Model : Type} (url url' : string)
    (store : SaveableController.ModelStore Model) :
  url' <> url ->
  SaveableController.listed Model url' (SaveableController.without Model url store) =
  SaveableController.listed Model url' store.
Proof.
  intros Hne. induction store as [|[k v] store IH]; simpl; [reflexivity|].
  destruct (String.eqb url k) eqn:E.
  - apply String.eqb_eq in E. subst k.
    destruct (String.eqb url' url) eqn:E'; [|exact IH].
    apply String.eqb_eq in E'. contradiction.
  - simpl. destruct (String.eqb url' k); [reflexivity | exact IH].
Qed.

(** X17: [loadModel] returns a controller exactly when
    [checkStoredModelStatus] is defined, and the controller then holds
    the stored network, not a newly created one; otherwise it throws
    "Cannot find model".  So the start of the page, which loads only
    after the check, never throws and has a controller exactly when a
    model is stored. *)
Theorem loadModel_iff_stored {Model : Type} (created : Model)
    (store : SaveableController.ModelStore Model) :
  ((exists c, SaveableController.loadModel Model created store = Ok c) <->
   SaveableController.checkStoredModelStatus Model store <> None) /\
  (forall c,
     SaveableController.loadModel Model created store = Ok c ->
     exists saved,
       SaveableController.listed Model SaveableController.MODEL_SAVE_PATH_ store =
         Some saved /\
       SaveableController.net Model c = SaveableController.artifacts Model saved) /\
  (SaveableController.checkStoredModelStatus Model store = None ->
   SaveableController.loadModel Model created store =
   Throw (Error "Cannot find model at indexeddb://differentiable-pole-v1.")) /\
  (exists start,
     SaveableController.setUpUI_net Model created store = Ok start /\
     (start = None <->
      SaveableController.checkStoredModelStatus Model store = None)).
Proof.
  unfold SaveableController.setUpUI_net, SaveableController.loadModel,
    SaveableController.checkStoredModelStatus.
  destruct (SaveableController.listed Model SaveableController.MODEL_SAVE_PATH_ store)
    as [saved|]; simpl.
  - split; [|split; [|split]].
    + split; [discriminate | intros _; eexists; reflexivity].
    + intros c H. injection H as <-. exists saved. auto.
    + discriminate.
    + eexists. split; [reflexivity|]. split; discriminate.
  - split; [|split; [|split]].
    + split; [intros [c H]; discriminate | intros H; contradiction].
    + discriminate.
    + reflexivity.
    + exists None. split; [reflexivity|]. split; reflexivity.
Qed.

Lemma loadModel_iff_stored_witness :
  SaveableController.loadModel nat 0%nat [] =
    Throw (Error "Cannot find model at indexeddb://differentiable-pole-v1.") /\
  SaveableController.loadModel nat 0%nat
    [(SaveableController.MODEL_SAVE_PATH_, SaveableController.Build_Saved nat 7%nat "2018")] =
    Ok (SaveableController.mk nat 7%nat).
Proof.
  split.
  - apply (proj1 (proj2 (proj2 (loadModel_iff_stored 0%nat [])))). reflexivity.
  - reflexivity.
Defined.

(** X18: saving and loading go through one URL.  After [saveModel],
    [loadModel] returns the controller that was saved and
    [checkStoredModelStatus] shows the time of the save, whatever was
    stored before; what is stored under other URLs is not
    touched; and after a [removeModel] that returns, the status is
    undefined and [loadModel] throws. *)
Theorem saveModel_round_trip {Model : Type}
    (remove_missing : SaveableController.ModelStore Model ->
                      Result (SaveableController.ModelStore Model))
    (created : Model) (now : string) (c : SaveableController.t Model)
    (store : SaveableController.ModelStore Model) :
  let saved := SaveableController.saveModel Model now c store in
  SaveableController.loadModel Model created saved = Ok c /\
  SaveableController.checkStoredModelStatus Model saved = Some now /\
  (forall url, url <> SaveableController.MODEL_SAVE_PATH_ ->
     SaveableController.listed Model url saved =
     SaveableController.listed Model url store) /\
  (forall store',
     SaveableController.removeModel Model remove_missing saved = Ok store' ->
     SaveableController.checkStoredModelStatus Model store' = None /\
     SaveableController.loadModel Model created store' =
     Throw (Error "Cannot find model at indexeddb://differentiable-pole-v1.") /\
     forall url, url <> SaveableController.MODEL_SAVE_PATH_ ->
       SaveableController.listed Model url store' =
       SaveableController.listed Model url store).
Proof.
  intros saved. subst saved.
  unfold SaveableController.loadModel, SaveableController.checkStoredModelStatus,
    SaveableController.removeModel, SaveableController.saveModel.
  cbn [SaveableController.listed].
  rewrite String.eqb_refl. cbn [SaveableController.artifacts SaveableController.new].
  split; [destruct c; reflexivity|]. split; [reflexivity|]. split.
  - intros url Hne.
    destruct (String.eqb url SaveableController.MODEL_SAVE_PATH_) eqn:E.
    + apply String.eqb_eq in E. contradiction.
    + apply listed_without_other. exact Hne.
  - intros store' H. injection H as <-.
    assert (Hnone : SaveableController.listed Model SaveableController.MODEL_SAVE_PATH_
              (SaveableController.without Model SaveableController.MODEL_SAVE_PATH_
                 (SaveableController.without Model SaveableController.MODEL_SAVE_PATH_ store))
              = None) by apply listed_without.
    rewrite Hnone. split; [reflexivity|]. split; [reflexivity|].
    intros url Hne. rewrite !listed_without_other by exact Hne. reflexivity.
Qed.

Lemma saveModel_round_trip_witness :
  let saved := SaveableController.saveModel nat "2018" (SaveableController.mk nat 7%nat)
                 [("indexeddb://other"%string, SaveableController.Build_Saved nat 3%nat "2017")] in
  SaveableController.checkStoredModelStatus nat
    (SaveableController.without nat SaveableController.MODEL_SAVE_PATH_ saved) = None /\
  SaveableController.loadModel nat 0%nat
    (SaveableController.without nat SaveableController.MODEL_SAVE_PATH_ saved) =
    Throw (Error "Cannot find model at indexeddb://differentiable-pole-v1.") /\
  SaveableController.listed nat "indexeddb://other"
    (SaveableController.without nat SaveableController.MODEL_SAVE_PATH_ saved) =
    Some (SaveableController.Build_Saved nat 3%nat "2017").
Proof.
  intros saved.
  destruct (saveModel_round_trip (fun s => Ok s) 0%nat "2018"
              (SaveableController.mk nat 7%nat)
              [("indexeddb://other"%string,
                SaveableController.Build_Saved nat 3%nat "2017")])
    as (_ & _ & _ & Hrm).
  destruct (Hrm (SaveableController.without nat SaveableController.MODEL_SAVE_PATH_ saved)
              eq_refl) as (H1 & H2 & H3).
  split; [exact H1|]. split; [exact H2|].
  rewrite (H3 "indexeddb://other"%string); [reflexivity | discriminate].
Defined.
